(** * sitr-website: the upload / poll / cancel core

    A shallow embedding of the three source files of the web client:

    - the [/api/analyze] route handler ([POST]), which relays an upload to the
      processing backend;
    - the [/api/result/:taskId] route handler ([GET]), which relays one status
      query;
    - the page component, with its handlers [handleFileChange],
      [handleSubmit], [handleReset] and the poll loop [pollForResult].

    JavaScript values that reach the code as parsed JSON are kept as a small
    JSON datatype, so that [payload?.error || "..."] keeps its meaning.  The
    page's asynchronous code is run against an explicit description of what
    the network answers and of when the controller is aborted; every effect
    (query, sleep, cancellation check, state setter, object URL creation and
    revocation) is recorded in a log. *)

From Stdlib Require Import ZArith List String Ascii Bool Lia DecimalString.
Import ListNotations.

#[local] Open Scope string_scope.
#[local] Open Scope Z_scope.

(** ** JavaScript values *)

#[local] Set Warnings "-register-all".

Module Js.

(** What [JSON.parse] can return.  A string is kept as its UTF-8 bytes.  A
    finite number is kept as an integer, 0 for zero: the code below tests
    numbers for truthiness and passes them on, nothing more.  A number
    literal beyond the range of a double parses to an infinity
    ([JInfinity]), which is truthy and which [JSON.stringify] writes as
    [null].  The field list of [JObj] holds the object's own properties,
    one entry per key. *)
Inductive Json : Type :=
| JNull
| JBool (b : bool)
| JNum (n : Z)
| JInfinity (negative : bool)
| JStr (s : string)
| JArr (items : list Json)
| JObj (fields : list (string * Json)).

(** [ToBoolean]: the condition of [if (v)], [!v] and [v || d]. *)
Definition truthy (v : Json) : bool :=
  match v with
  | JNull => false
  | JBool b => b
  | JNum n => negb (n =? 0)
  | JInfinity _ => true
  | JStr s => negb (String.eqb s "")
  | JArr _ => true
  | JObj _ => true
  end.

Definition infinite (v : Json) : bool :=
  match v with
  | JInfinity _ => true
  | _ => false
  end.

(** [JSON.parse(JSON.stringify(v))]: what the reader of a JSON body gets
    when the writer had [v].  Only the infinities change, wherever they
    stand. *)
Fixpoint serialized (v : Json) : Json :=
  match v with
  | JInfinity _ => JNull
  | JArr items => JArr (map serialized items)
  | JObj fields => JObj (map (fun kv => (fst kv, serialized (snd kv))) fields)
  | _ => v
  end.

Fixpoint assoc (k : string) (fields : list (string * Json)) : option Json :=
  match fields with
  | [] => None
  | (k', v) :: rest => if String.eqb k k' then Some v else assoc k rest
  end.

(** [payload?.k] on a parsed JSON value; [None] is [undefined].  Only objects
    carry the properties looked up here. *)
Definition get (k : string) (payload : Json) : option Json :=
  match payload with
  | JObj fields => assoc k fields
  | _ => None
  end.

(** [v || d] for a possibly undefined [v] and a string literal [d]. *)
Definition or_else (v : option Json) (d : string) : Json :=
  match v with
  | Some x => if truthy x then x else JStr d
  | None => JStr d
  end.

(** [s || d] on strings: the empty string is falsy. *)
Definition str_or (s d : string) : string :=
  if String.eqb s "" then d else s.

(** [s.includes(sub)] for a non-empty [sub]. *)
Definition includes (s sub : string) : bool :=
  match String.index 0 sub s with
  | Some _ => true
  | None => false
  end.

End Js.

Import Js.

(** ** HTTP responses *)

Module Http.

(** The bytes of a body.  [JsonText v] stands for a text that [JSON.parse]
    turns into [v]; [Raw b] for bytes [b] that are not JSON text. *)
Inductive Payload : Type :=
| Raw (bytes : list Byte.byte)
| JsonText (v : Json).

(** Reading the body can also fail half way ([Broken]). *)
Inductive Body : Type :=
| Delivered (p : Payload)
| Broken.

Record Response : Type := mkResponse {
  status : Z;
  content_type : option string;   (* headers.get("content-type") *)
  body : Body
}.

(** [response.ok] *)
Definition ok (r : Response) : bool :=
  (200 <=? status r) && (status r <=? 299).

(** What [await fetch(...)] gives back. *)
Inductive FetchOutcome : Type :=
| Resolves (r : Response)
| Rejects.

(** [await response.json()]; [None] when the promise rejects. *)
Definition json (r : Response) : option Json :=
  match body r with
  | Delivered (JsonText v) => Some v
  | _ => None
  end.

(** [await response.json().catch(() => null)] *)
Definition json_or_null (r : Response) : Json :=
  match json r with
  | Some v => v
  | None => JNull
  end.

(** [await response.arrayBuffer()]; [None] when the promise rejects. *)
Definition arrayBuffer (r : Response) : option Payload :=
  match body r with
  | Delivered p => Some p
  | Broken => None
  end.

(** Statuses for which the [Response] constructor refuses a body. *)
Definition null_body_status (st : Z) : bool :=
  (st =? 101) || (st =? 103) || (st =? 204) || (st =? 205) || (st =? 304).

Definition constructor_accepts (st : Z) : bool :=
  (200 <=? st) && (st <=? 599) && negb (null_body_status st).

(** [NextResponse.json(value, { status })]; [None] when the constructor
    throws (status outside 200..599, or a status that allows no body).  The
    body is [JSON.stringify(value)]. *)
Definition NextResponse_json (value : Json) (st : Z) : option Response :=
  if constructor_accepts st
  then Some (mkResponse st (Some "application/json")
               (Delivered (JsonText (serialized value))))
  else None.

(** A byte that may stand in a header value given to [Headers]: not NUL,
    LF or CR, and no part of a character above U+00FF (in UTF-8 these
    characters, and only these, have a byte of 0xC4 or more). *)
Definition header_byte_ok (c : ascii) : bool :=
  let n := nat_of_ascii c in
  negb (Nat.eqb n 0) && negb (Nat.eqb n 10) && negb (Nat.eqb n 13)
  && Nat.ltb n 196.

(** Whether the [Response] constructor takes [s] as a header value; it
    throws otherwise.  (None of the values built below begins or ends with
    a space or a tab.) *)
Fixpoint header_value_ok (s : string) : bool :=
  match s with
  | EmptyString => true
  | String c rest => header_byte_ok c && header_value_ok rest
  end.

Definition quote : string := String (ascii_of_nat 34) EmptyString.

Definition error_body (message : Json) : Json := JObj [("error", message)].

(** A [File] as the browser and the form hand it over. *)
Record File : Type := mkFile {
  name : string;
  type : string;
  bytes : list Byte.byte
}.

(** A [Blob]: some bytes and a MIME type. *)
Record Blob : Type := mkBlob {
  data : Payload;
  mime : string
}.

Definition blob_of_file (f : File) : Blob := mkBlob (Raw (bytes f)) (type f).

(** [blob.size === 0]; a JSON text is never empty. *)
Definition size_zero (b : Blob) : bool :=
  match data b with
  | Raw [] => true
  | _ => false
  end.

(** [headers.get("content-type") || ""] *)
Definition content_type_or_empty (r : Response) : string :=
  match content_type r with
  | Some ct => ct
  | None => ""
  end.

End Http.

Import Http.

(** ** The [/api/analyze] route *)

Module AnalyzeRoute.

(** An entry of the incoming form: [formData.get("image")] is a [File], a
    string, or [null]. *)
Inductive FormEntry : Type :=
| EntryFile (f : File)
| EntryString (s : string).

(** The multipart request sent on to the backend. *)
Record ProxyRequest : Type := mkProxyRequest {
  url : string;
  method : string;
  image_name : string;
  image_type : string;
  image_bytes : list Byte.byte
}.

(** What the caller of the route gets: a response, or the framework's answer
    to a handler that threw. *)
Inductive RouteResult : Type :=
| Responded (r : Response)
| Unhandled.

Section Route.

(** [process.env.HIJAB_BACKEND_URL] *)
Variable backendBaseUrl : option string.
(** The network seen from the route. *)
Variable fetch : ProxyRequest -> FetchOutcome.
(** [Date.now()] *)
Variable now : Z.

Definition backend_configured : option string :=
  match backendBaseUrl with
  | Some base => if String.eqb base "" then None else Some base
  | None => None
  end.

Definition missing_configuration : option Response :=
  NextResponse_json (error_body (JStr "Missing HIJAB_BACKEND_URL configuration.")) 500.

Definition image_required : option Response :=
  NextResponse_json (error_body (JStr "Image file is required.")) 400.

Definition backend_unreachable : option Response :=
  NextResponse_json (error_body (JStr "Unable to reach hijab processor backend.")) 502.

Definition missing_task_id : option Response :=
  NextResponse_json (error_body (JStr "Backend did not return a task_id.")) 502.

Definition upload_name (f : File) : string :=
  str_or (name f)
    ("upload-" ++ NilZero.string_of_int (Z.to_int now) ++ ".png").

Definition upload_type (f : File) : string :=
  str_or (type f) "application/octet-stream".

Definition proxy_request (base : string) (f : File) : ProxyRequest :=
  mkProxyRequest (base ++ "/process_image") "POST"
    (upload_name f) (upload_type f) (bytes f).

(** The body of the [try] block; [None] when it throws. *)
Definition relay (base : string) (f : File) : option Response :=
  match fetch (proxy_request base f) with
  | Rejects => None
  | Resolves response =>
      let payload := json_or_null response in
      if negb (ok response) then
        NextResponse_json
          (error_body (or_else (get "error" payload) "Failed to start processing."))
          (status response)
      else
        match get "task_id" payload with
        | Some task_id =>
            if truthy task_id
            then NextResponse_json (JObj [("taskId", task_id)]) 202
            else missing_task_id
        | None => missing_task_id
        end
  end.

Definition respond (r : option Response) : RouteResult :=
  match r with
  | Some resp => Responded resp
  | None => Unhandled
  end.

(** [export async function POST(request)].  [form] is [None] when
    [request.formData()] rejects; otherwise it holds
    [formData.get("image")]. *)
Definition POST (form : option (option FormEntry)) : RouteResult :=
  match backend_configured with
  | None => respond missing_configuration
  | Some base =>
      match form with
      | None => Unhandled
      | Some (Some (EntryFile f)) =>
          match relay base f with
          | Some resp => Responded resp
          | None => respond backend_unreachable
          end
      | Some _ => respond image_required
      end
  end.

End Route.

(** A JSON error reply, as the route builds it. *)
Definition error_reply (st : Z) (message : Json) : Response :=
  mkResponse st (Some "application/json")
    (Delivered (JsonText (serialized (error_body message)))).

(** The reply that accepts an upload. *)
Definition accepted_reply (task_id : Json) : Response :=
  mkResponse 202 (Some "application/json")
    (Delivered (JsonText (serialized (JObj [("taskId", task_id)])))).








End AnalyzeRoute.

(** ** The [/api/result/:taskId] route *)

Module ResultRoute.

Section Route.

Variable backendBaseUrl : option string.
(** The network seen from the route, by URL. *)
Variable fetch : string -> FetchOutcome.
Variable encodeURIComponent : string -> string.

Definition backend_configured : option string :=
  match backendBaseUrl with
  | Some base => if String.eqb base "" then None else Some base
  | None => None
  end.

Definition backend_unreachable : option Response :=
  NextResponse_json (error_body (JStr "Unable to contact hijab processor backend.")) 502.

(** The [Content-Disposition] header of a finished result. *)
Definition content_disposition (taskId : string) : string :=
  "inline; filename=" ++ quote ++ "result-" ++ taskId ++ ".png" ++ quote.

(** The body of the [try] block; [None] when it throws: the request or the
    reading of a body fails, or a response cannot be built.  The content
    type of the binary answer was read from the headers of the backend's
    reply, or is the literal; only the task id can spoil a header. *)
Definition relay (base taskId : string) : option Response :=
  match fetch (base ++ "/get_result/" ++ encodeURIComponent taskId) with
  | Rejects => None
  | Resolves response =>
      let contentType := content_type_or_empty response in
      if status response =? 202 then
        let body :=
          match json response with
          | Some v => v
          | None => JObj [("status", JStr "processing")]
          end in
        NextResponse_json body 202
      else if negb (ok response) then
        let errorBody := json_or_null response in
        NextResponse_json
          (error_body (or_else (get "error" errorBody) "Processing failed."))
          (status response)
      else if includes contentType "application/json" then
        match json response with
        | Some payload => NextResponse_json payload 200
        | None => None
        end
      else
        match arrayBuffer response with
        | Some buffer =>
            if header_value_ok (content_disposition taskId)
            then Some (mkResponse 200 (Some (str_or contentType "image/png"))
                         (Delivered buffer))
            else None
        | None => None
        end
  end.

(** [export async function GET(_req, { params })] *)
Definition GET (taskId : string) : option Response :=
  match backend_configured with
  | None =>
      NextResponse_json (error_body (JStr "Missing HIJAB_BACKEND_URL configuration.")) 500
  | Some base =>
      if String.eqb taskId "" then
        NextResponse_json (error_body (JStr "Task ID is required.")) 400
      else
        match relay base taskId with
        | Some resp => Some resp
        | None => backend_unreachable
        end
  end.

End Route.

End ResultRoute.

(** ** The page component *)

Module Page.

#[local] Open Scope list_scope.

(** [type Status] *)
Inductive Status : Type := idle | uploading | processing | success | error.

Definition POLL_INTERVAL_MS : Z := 2000.
Definition MAX_POLLS : nat := 45.

(** Object URLs ([blob:...] strings) and abort controllers are named by the
    order of their creation. *)
Definition Url : Type := nat.
Definition Controller : Type := nat.

(** The places of [pollForResult] that test [controller.signal.aborted]. *)
Inductive CheckSite : Type :=
| LoopHead            (* top of each iteration *)
| PendingBeforeSleep  (* in the 202 branch, before the sleep *)
| PendingAfterSleep   (* in the 202 branch, after the sleep *)
| InCatch             (* first statement of the catch block *)
| TrailingBeforeSleep (* after the try statement, before the sleep *)
| TrailingAfterSleep  (* after the try statement, after the sleep *)
| AfterLoop.          (* after the for loop *)

(** The two calls of [sleep]. *)
Inductive SleepSite : Type :=
| PendingSleep        (* in the 202 branch *)
| TrailingSleep.      (* after the try statement *)

(** The two calls of [URL.createObjectURL]. *)
Inductive UrlKind : Type :=
| Preview             (* in handleFileChange *)
| Result.             (* in pollForResult *)

(** Everything the component does to the outside, and everything done to
    its state. *)
Inductive Event : Type :=
| Query (c : Controller) (taskId : Json) (attempt : nat)
| Upload (f : File)
| Checked (site : CheckSite) (c : Controller) (was_aborted : bool)
| Slept (site : SleepSite) (ms : Z)
| Abort (c : Controller)
| SetSelectedFile (f : option File)
| SetPreviewUrl (u : option Url)
| SetResultUrl (u : option Url)
| SetStatus (s : Status)
| SetErrorMessage (m : Json)
| ClearFileInput
| Created (k : UrlKind) (u : Url)
| Revoked (u : Url)
| ConsoleError (label : string).

(** The five [useState] cells.  [errorMessage] is [JNull] for [null]; a
    message read off a backend reply is whatever JSON value was there. *)
Record Session : Type := mkSession {
  selectedFile : option File;
  previewUrl : option Url;
  resultUrl : option Url;
  status : Status;
  errorMessage : Json
}.

(** The component together with the browser state it touches.  [log] has the
    latest event first. *)
Record World : Type := mkWorld {
  session : Session;
  pollControllerRef : option Controller;
  aborted : list Controller;          (* controllers whose signal is aborted *)
  nextController : Controller;
  objectUrls : list (Url * Blob);     (* object URLs not yet revoked *)
  nextUrl : Url;
  log : list Event
}.

Definition initial : World :=
  mkWorld (mkSession None None None idle JNull) None [] 0%nat [] 0%nat [].

(** The events in the order they happened. *)
Definition trace (w : World) : list Event := rev (log w).

(** *** State passing *)

Definition M (A : Type) : Type := World -> A * World.

Definition ret {A : Type} (a : A) : M A := fun w => (a, w).

Definition bind {A B : Type} (m : M A) (k : A -> M B) : M B :=
  fun w => let (a, w') := m w in k a w'.

Notation "x <- m ;; k" := (bind m (fun x => k))
  (at level 61, m at next level, right associativity).
Notation "m ;; k" := (bind m (fun _ => k))
  (at level 61, right associativity).

Definition exec {A : Type} (m : M A) (w : World) : World := snd (m w).

Definition emit (e : Event) : M unit :=
  fun w => (tt, mkWorld (session w) (pollControllerRef w) (aborted w)
                  (nextController w) (objectUrls w) (nextUrl w) (e :: log w)).

Definition update_session (f : Session -> Session) : M unit :=
  fun w => (tt, mkWorld (f (session w)) (pollControllerRef w) (aborted w)
                  (nextController w) (objectUrls w) (nextUrl w) (log w)).

Definition read {A : Type} (f : World -> A) : M A := fun w => (f w, w).

(** *** The state setters *)

Definition setSelectedFile (f : option File) : M unit :=
  emit (SetSelectedFile f) ;;
  update_session (fun s =>
    mkSession f (previewUrl s) (resultUrl s) (status s) (errorMessage s)).

Definition setPreviewUrl (u : option Url) : M unit :=
  emit (SetPreviewUrl u) ;;
  update_session (fun s =>
    mkSession (selectedFile s) u (resultUrl s) (status s) (errorMessage s)).

Definition setStatus (st : Status) : M unit :=
  emit (SetStatus st) ;;
  update_session (fun s =>
    mkSession (selectedFile s) (previewUrl s) (resultUrl s) st (errorMessage s)).

Definition setErrorMessage (m : Json) : M unit :=
  emit (SetErrorMessage m) ;;
  update_session (fun s =>
    mkSession (selectedFile s) (previewUrl s) (resultUrl s) (status s) m).

(** [setResultUrl((prev) => ...)]: the updater gets the current value and may
    itself have effects. *)
Definition setResultUrl (updater : option Url -> M (option Url)) : M unit :=
  prev <- read (fun w => resultUrl (session w)) ;;
  next <- updater prev ;;
  emit (SetResultUrl next) ;;
  update_session (fun s =>
    mkSession (selectedFile s) (previewUrl s) next (status s) (errorMessage s)).

(** *** Object URLs *)

Definition createObjectURL (k : UrlKind) (b : Blob) : M Url :=
  fun w =>
    let u := nextUrl w in
    (u, mkWorld (session w) (pollControllerRef w) (aborted w)
          (nextController w) ((u, b) :: objectUrls w) (S u)
          (Created k u :: log w)).

Definition revokeObjectURL (u : Url) : M unit :=
  fun w =>
    (tt, mkWorld (session w) (pollControllerRef w) (aborted w)
           (nextController w)
           (filter (fun entry => negb (Nat.eqb (fst entry) u)) (objectUrls w))
           (nextUrl w) (Revoked u :: log w)).

(** [const resetObjectUrl = (url) => { if (url) URL.revokeObjectURL(url) }] *)
Definition resetObjectUrl (url : option Url) : M unit :=
  match url with
  | Some u => revokeObjectURL u
  | None => ret tt
  end.

(** *** Abort controllers *)

Definition is_aborted (c : Controller) (w : World) : bool :=
  existsb (Nat.eqb c) (aborted w).

(** [new AbortController()] *)
Definition new_AbortController : M Controller :=
  fun w =>
    let c := nextController w in
    (c, mkWorld (session w) (pollControllerRef w) (aborted w)
          (S c) (objectUrls w) (nextUrl w) (log w)).

(** [controller.abort()] *)
Definition abort (c : Controller) : M unit :=
  fun w =>
    (tt, mkWorld (session w) (pollControllerRef w)
           (if is_aborted c w then aborted w else c :: aborted w)
           (nextController w) (objectUrls w) (nextUrl w) (Abort c :: log w)).

(** [pollControllerRef.current?.abort()] *)
Definition abort_current : M unit :=
  current <- read pollControllerRef ;;
  match current with
  | Some c => abort c
  | None => ret tt
  end.

(** [pollControllerRef.current = controller] *)
Definition set_pollControllerRef (c : Controller) : M unit :=
  fun w =>
    (tt, mkWorld (session w) (Some c) (aborted w)
           (nextController w) (objectUrls w) (nextUrl w) (log w)).

(** [controller.signal.aborted], each test recorded with its place. *)
Definition check (site : CheckSite) (c : Controller) : M bool :=
  b <- read (is_aborted c) ;;
  emit (Checked site c b) ;;
  ret b.

(** *** The synchronous handlers *)

(** [handleFileChange]; [file] is [event.target.files?.[0]].  The handler
    reads [previewUrl] as the render that created it saw it. *)
Definition handleFileChange (file : option File) : M unit :=
  shown <- read (fun w => previewUrl (session w)) ;;
  setErrorMessage JNull ;;
  setStatus idle ;;
  abort_current ;;
  match file with
  | None =>
      setSelectedFile None ;;
      resetObjectUrl shown ;;
      setPreviewUrl None
  | Some f =>
      resetObjectUrl shown ;;
      nextPreviewUrl <- createObjectURL Preview (blob_of_file f) ;;
      setPreviewUrl (Some nextPreviewUrl) ;;
      setSelectedFile (Some f) ;;
      setResultUrl (fun prev => resetObjectUrl prev ;; ret None)
  end.

(** [handleReset], on the mounted component (the file input exists). *)
Definition handleReset : M unit :=
  shown <- read (fun w => previewUrl (session w)) ;;
  setSelectedFile None ;;
  emit ClearFileInput ;;
  resetObjectUrl shown ;;
  setPreviewUrl None ;;
  setResultUrl (fun prev => resetObjectUrl prev ;; ret None) ;;
  setErrorMessage JNull ;;
  setStatus idle ;;
  abort_current.

(** *** The poll loop *)

(** What happens around one status query: the network's answer, and whether
    somebody calls [abort()] on the loop's controller while the loop is
    suspended in the fetch, in the reading of the body, or in the sleep. *)
Record Attempt : Type := mkAttempt {
  reply : FetchOutcome;
  abort_during_fetch : bool;
  abort_during_body : bool;
  abort_during_sleep : bool
}.

(** How a statement ends. *)
Inductive Completion : Type := Normal | Continue | Return | Throw.

Definition interrupted (flag : bool) (c : Controller) : M unit :=
  if flag then abort c else ret tt.

(** [await fetch(`/api/result/${taskId}`, { ..., signal })]: an aborted
    signal makes the promise reject. *)
Definition await_fetch (c : Controller) (taskId : Json) (attempt : nat)
    (a : Attempt) : M FetchOutcome :=
  emit (Query c taskId attempt) ;;
  interrupted (abort_during_fetch a) c ;;
  gone <- read (is_aborted c) ;;
  ret (if gone then Rejects else reply a).

(** [await response.json()]: the signal also fails the reading of the body. *)
Definition await_json (c : Controller) (a : Attempt) (response : Response)
    : M (option Json) :=
  interrupted (abort_during_body a) c ;;
  gone <- read (is_aborted c) ;;
  ret (if gone then None else json response).

(** [await response.json().catch(() => null)] *)
Definition await_json_or_null (c : Controller) (a : Attempt)
    (response : Response) : M Json :=
  payload <- await_json c a response ;;
  ret (match payload with Some v => v | None => JNull end).

(** [await response.blob()] *)
Definition await_blob (c : Controller) (a : Attempt) (response : Response)
    : M (option Blob) :=
  interrupted (abort_during_body a) c ;;
  gone <- read (is_aborted c) ;;
  ret (if gone then None
       else match body response with
            | Delivered p => Some (mkBlob p (content_type_or_empty response))
            | Broken => None
            end).

(** [await sleep(ms)] *)
Definition await_sleep (site : SleepSite) (ms : Z) (c : Controller)
    (a : Attempt) : M unit :=
  emit (Slept site ms) ;;
  interrupted (abort_during_sleep a) c.

(** [setErrorMessage(m); setStatus("error")] *)
Definition fail_with (m : Json) : M unit :=
  setErrorMessage m ;;
  setStatus error.

(** The body of the [try] block. *)
Definition try_block (c : Controller) (taskId : Json) (attempt : nat)
    (a : Attempt) : M Completion :=
  fetched <- await_fetch c taskId attempt a ;;
  match fetched with
  | Rejects => ret Throw
  | Resolves response =>
      if Http.status response =? 202 then
        gone <- check PendingBeforeSleep c ;;
        if gone then ret Return else
        await_sleep PendingSleep POLL_INTERVAL_MS c a ;;
        gone <- check PendingAfterSleep c ;;
        if gone then ret Return else
        ret Continue
      else if negb (ok response) then
        payload <- await_json_or_null c a response ;;
        fail_with (or_else (get "error" payload) "Processing failed.") ;;
        ret Return
      else
        let contentType := content_type_or_empty response in
        if includes contentType "application/json" then
          parsed <- await_json c a response ;;
          match parsed with
          | None => ret Throw
          | Some payload =>
              fail_with (or_else (get "error" payload) "Processing failed.") ;;
              ret Return
          end
        else
          read_blob <- await_blob c a response ;;
          match read_blob with
          | None => ret Throw
          | Some blob =>
              if size_zero blob then
                fail_with (JStr "Received an empty file.") ;;
                ret Return
              else
                setResultUrl (fun prev =>
                  resetObjectUrl prev ;;
                  u <- createObjectURL Result blob ;;
                  ret (Some u)) ;;
                setStatus success ;;
                ret Return
          end
  end.

(** The [catch] block. *)
Definition catch_block (c : Controller) : M Completion :=
  gone <- check InCatch c ;;
  if gone then ret Return else
  emit (ConsoleError "Polling failed:") ;;
  fail_with (JStr "Lost connection to the processor.") ;;
  ret Return.

(** The [try ... catch] statement. *)
Definition try_catch (c : Controller) (taskId : Json) (attempt : nat)
    (a : Attempt) : M Completion :=
  r <- try_block c taskId attempt a ;;
  match r with
  | Throw => catch_block c
  | _ => ret r
  end.

(** The statement after the [try ... catch] statement, inside the loop. *)
Definition trailing_block (c : Controller) (attempt : nat) (a : Attempt)
    : M Completion :=
  if (attempt <? MAX_POLLS - 1)%nat then
    gone <- check TrailingBeforeSleep c ;;
    if gone then ret Return else
    await_sleep TrailingSleep POLL_INTERVAL_MS c a ;;
    gone <- check TrailingAfterSleep c ;;
    if gone then ret Return else
    ret Normal
  else ret Normal.

(** The body of the [for] loop. *)
Definition for_body (c : Controller) (taskId : Json) (attempt : nat)
    (a : Attempt) : M Completion :=
  gone <- check LoopHead c ;;
  if gone then ret Return else
  r <- try_catch c taskId attempt a ;;
  match r with
  | Normal => trailing_block c attempt a
  | _ => ret r
  end.

(** [for (let attempt = 0; attempt < MAX_POLLS; attempt += 1)], as a walk
    over the values [attempt] takes. *)
Fixpoint for_loop (c : Controller) (taskId : Json) (env : nat -> Attempt)
    (attempts : list nat) : M Completion :=
  match attempts with
  | [] => ret Normal
  | attempt :: rest =>
      r <- for_body c taskId attempt (env attempt) ;;
      match r with
      | Return => ret Return
      | Throw => ret Throw
      | _ => for_loop c taskId env rest
      end
  end.

(** The first three statements of [pollForResult]. *)
Definition poll_start : M Controller :=
  controller <- new_AbortController ;;
  abort_current ;;
  set_pollControllerRef controller ;;
  ret controller.

(** The statement after the loop. *)
Definition after_loop (c : Controller) : M unit :=
  gone <- check AfterLoop c ;;
  if gone then ret tt else
  fail_with (JStr "Timed out while waiting for the model.").

(** [pollForResult(taskId)], run to its end against [env]. *)
Definition pollForResult (taskId : Json) (env : nat -> Attempt) : M unit :=
  controller <- poll_start ;;
  r <- for_loop controller taskId env (seq 0 MAX_POLLS) ;;
  match r with
  | Normal | Continue => after_loop controller
  | _ => ret tt
  end.

(** *** Submitting *)

(** Where [handleSubmit] stands after its synchronous first part. *)
Inductive Progress : Type :=
| Finished
| AwaitingUpload (f : File).

(** [handleSubmit] up to [await fetch("/api/analyze", ...)]. *)
Definition handleSubmit_begin : M Progress :=
  chosen <- read (fun w => selectedFile (session w)) ;;
  match chosen with
  | None =>
      setErrorMessage (JStr "Please choose an image before checking.") ;;
      ret Finished
  | Some f =>
      setErrorMessage JNull ;;
      setStatus uploading ;;
      setResultUrl (fun prev => resetObjectUrl prev ;; ret None) ;;
      emit (Upload f) ;;
      ret (AwaitingUpload f)
  end.

(** [handleSubmit] from the answer of the upload up to the call of
    [pollForResult]; the result is the task to poll for, if any. *)
Definition handleSubmit_resume (upload : FetchOutcome) : M (option Json) :=
  match upload with
  | Rejects =>
      emit (ConsoleError "Upload failed:") ;;
      fail_with (JStr "Upload failed. Please try again.") ;;
      ret None
  | Resolves response =>
      let payload := json_or_null response in
      if negb (ok response) then
        fail_with (or_else (get "error" payload) "Unable to contact the model.") ;;
        ret None
      else
        match get "taskId" payload with
        | Some taskId =>
            if truthy taskId then
              setStatus processing ;;
              ret (Some taskId)
            else
              fail_with (JStr "Missing task information from the backend.") ;;
              ret None
        | None =>
            fail_with (JStr "Missing task information from the backend.") ;;
            ret None
        end
  end.

(** [handleSubmit] with nothing else happening in between. *)
Definition handleSubmit (upload : FetchOutcome) (env : nat -> Attempt)
    : M unit :=
  p <- handleSubmit_begin ;;
  match p with
  | Finished => ret tt
  | AwaitingUpload _ =>
      task <- handleSubmit_resume upload ;;
      match task with
      | Some taskId => pollForResult taskId env
      | None => ret tt
      end
  end.

(** *** Rendering and the life of the component *)

Definition same_url (a b : option Url) : bool :=
  match a, b with
  | Some x, Some y => Nat.eqb x y
  | None, None => true
  | _, _ => false
  end.

(** What React does after a batch of state updates: an effect whose
    dependency changed has its previous cleanup run, with the values of the
    render that installed it.  These are the cleanups of the effects on
    [previewUrl] and on [resultUrl]. *)
Definition commit (before : Session) : M unit :=
  after <- read session ;;
  (if same_url (previewUrl before) (previewUrl after) then ret tt
   else resetObjectUrl (previewUrl before)) ;;
  (if same_url (resultUrl before) (resultUrl after) then ret tt
   else resetObjectUrl (resultUrl before)).

(** Unmounting runs the cleanup of every effect, in the order of the
    effects. *)
Definition unmount : M unit :=
  last <- read session ;;
  resetObjectUrl (previewUrl last) ;;
  resetObjectUrl (resultUrl last) ;;
  abort_current.

(** What can happen to the mounted component, one uninterrupted piece of
    code at a time. *)
Inductive Action : Type :=
| FileChange (file : option File)
| SubmitBegin
| SubmitResume (upload : FetchOutcome)
| PollAttempt (c : Controller) (taskId : Json) (attempt : nat) (a : Attempt)
| PollEnd (c : Controller)
| Reset.

Definition perform (act : Action) : M unit :=
  match act with
  | FileChange file => handleFileChange file
  | SubmitBegin => handleSubmit_begin ;; ret tt
  | SubmitResume upload =>
      task <- handleSubmit_resume upload ;;
      match task with
      | Some _ => poll_start ;; ret tt
      | None => ret tt
      end
  | PollAttempt c taskId attempt a => for_body c taskId attempt a ;; ret tt
  | PollEnd c => after_loop c
  | Reset => handleReset
  end.

(** An action followed by the render it causes. *)
Definition dispatch (act : Action) : M unit :=
  before <- read session ;;
  perform act ;;
  commit before.

Fixpoint run (acts : list Action) : M unit :=
  match acts with
  | [] => ret tt
  | act :: rest => dispatch act ;; run rest
  end.

(** *** Vocabulary for the statements *)

(** [w] with further events, given in the order they happened. *)
Definition record (events : list Event) (w : World) : World :=
  mkWorld (session w) (pollControllerRef w) (aborted w) (nextController w)
    (objectUrls w) (nextUrl w) (rev events ++ log w).

(** What one iteration of the loop does when the backend says 202 and nobody
    cancels. *)
Definition pending_round (c : Controller) (taskId : Json) (attempt : nat)
    : list Event :=
  [Checked LoopHead c false;
   Query c taskId attempt;
   Checked PendingBeforeSleep c false;
   Slept PendingSleep POLL_INTERVAL_MS;
   Checked PendingAfterSleep c false].

Definition pending_rounds (c : Controller) (taskId : Json)
    (attempts : list nat) : list Event :=
  flat_map (pending_round c taskId) attempts.

(** A backend that answers 202 to every query, and nobody cancels. *)
Definition always_pending (env : nat -> Attempt) : Prop :=
  forall attempt, exists r,
    env attempt = mkAttempt (Resolves r) false false false /\
    Http.status r = 202.

Definition is_query (e : Event) : bool :=
  match e with Query _ _ _ => true | _ => false end.

Definition is_sleep (e : Event) : bool :=
  match e with Slept _ _ => true | _ => false end.

(** [w'] is [w] after further events, all of which satisfy [P]. *)
Definition only_added (P : Event -> bool) (w w' : World) : Prop :=
  exists events, trace w' = trace w ++ events /\ forallb P events = true.

(** The same, on logs (latest event first). *)
Definition grown (P : Event -> bool) (old new : list Event) : Prop :=
  exists events, new = events ++ old /\ forallb P events = true.

(** The value and the state a computation ends with satisfy [Q]. *)
Definition wp {A : Type} (m : M A) (Q : A -> World -> Prop) (w : World) : Prop :=
  Q (fst (m w)) (snd (m w)).

(** The controller is aborted while the loop reads the body of a reply with
    a failure status. *)
Definition cancelled_reading_failure (a : Attempt) : Prop :=
  abort_during_fetch a = false /\
  abort_during_body a = true /\
  exists response,
    reply a = Resolves response /\
    ok response = false /\
    Http.status response <> 202.

(** An event of the statement that follows the [try ... catch] statement. *)
Definition is_trailing (e : Event) : bool :=
  match e with
  | Slept TrailingSleep _ => true
  | Checked TrailingBeforeSleep _ _ => true
  | Checked TrailingAfterSleep _ _ => true
  | _ => false
  end.

Definition quiet (e : Event) : bool := negb (is_trailing e).

(** The invariant of the specification: there is a result handle exactly
    when the status is [success]. *)
Definition result_iff_success (s : Session) : Prop :=
  resultUrl s <> None <-> status s = success.

(** A world reached from the freshly mounted component. *)
Definition reachable (w : World) : Prop :=
  exists acts, w = exec (run acts) initial.

(** *** Object URLs over the life of the component *)

Definition kind_eqb (a b : UrlKind) : bool :=
  match a, b with
  | Preview, Preview => true
  | Result, Result => true
  | _, _ => false
  end.

Definition without (u : Url) (l : list Url) : list Url :=
  filter (fun v => negb (Nat.eqb v u)) l.

(** The object URLs of kind [k] that have been created and not revoked, by
    the end of log [l] (latest event first). *)
Fixpoint outstanding (k : UrlKind) (l : list Event) : list Url :=
  match l with
  | [] => []
  | Created k' u :: older =>
      if kind_eqb k k' then u :: outstanding k older else outstanding k older
  | Revoked u :: older => without u (outstanding k older)
  | _ :: older => outstanding k older
  end.

(** How many times [URL.revokeObjectURL(u)] was called. *)
Fixpoint revocations (u : Url) (l : list Event) : nat :=
  match l with
  | [] => 0
  | Revoked v :: older =>
      ((if Nat.eqb v u then 1 else 0) + revocations u older)%nat
  | _ :: older => revocations u older
  end.

Definition created (u : Url) (l : list Event) : Prop :=
  exists k, In (Created k u) l.

(** At every point of the history there is at most one outstanding object
    URL of each kind. *)
Fixpoint at_most_one_each (l : list Event) : Prop :=
  match l with
  | [] => True
  | e :: older =>
      (List.length (outstanding Preview (e :: older)) <= 1)%nat /\
      (List.length (outstanding Result (e :: older)) <= 1)%nat /\
      at_most_one_each older
  end.

(** The component from its mounting to its unmounting, with [acts] in
    between. *)
Definition whole_life (acts : list Action) : M unit :=
  run acts ;; unmount.

(** The lifecycle the specification states: every object URL that was
    created has been revoked exactly once when the component is gone. *)
Definition revoked_exactly_once : Prop :=
  forall acts u,
    created u (log (exec (whole_life acts) initial)) ->
    revocations u (log (exec (whole_life acts) initial)) = 1%nat.

(** The discipline the code keeps with its object URLs, as a replay of the
    log: which URL each slot holds, the next fresh URL, and the URLs revoked
    once so far.  A URL is created fresh into an empty slot; a revocation
    hits a held URL, or for a second time a URL revoked once. *)
Record Handles : Type := mkHandles {
  held_preview : option Url;
  held_result : option Url;
  fresh : Url;
  once : list Url
}.

Definition holds (slot : option Url) (u : Url) : bool :=
  match slot with
  | Some v => Nat.eqb v u
  | None => false
  end.

Definition mem (u : Url) (l : list Url) : bool := existsb (Nat.eqb u) l.

Definition replay_event (e : Event) (h : Handles) : option Handles :=
  match e with
  | Created Preview u =>
      match held_preview h with
      | None =>
          if Nat.eqb u (fresh h)
          then Some (mkHandles (Some u) (held_result h) (S u) (once h))
          else None
      | Some _ => None
      end
  | Created Result u =>
      match held_result h with
      | None =>
          if Nat.eqb u (fresh h)
          then Some (mkHandles (held_preview h) (Some u) (S u) (once h))
          else None
      | Some _ => None
      end
  | Revoked u =>
      if holds (held_preview h) u
      then Some (mkHandles None (held_result h) (fresh h) (u :: once h))
      else if holds (held_result h) u
      then Some (mkHandles (held_preview h) None (fresh h) (u :: once h))
      else if mem u (once h)
      then Some (mkHandles (held_preview h) (held_result h) (fresh h)
                   (without u (once h)))
      else None
  | _ => Some h
  end.

Fixpoint replay (l : list Event) : option Handles :=
  match l with
  | [] => Some (mkHandles None None 0%nat [])
  | e :: older =>
      match replay older with
      | Some h => replay_event e h
      | None => None
      end
  end.

Definition slot_list (slot : option Url) : list Url :=
  match slot with
  | Some u => [u]
  | None => []
  end.

(** What a successful replay says about the log. *)
Record Sound (l : list Event) (h : Handles) : Prop := mkSound {
  sound_preview : outstanding Preview l = slot_list (held_preview h);
  sound_result : outstanding Result l = slot_list (held_result h);
  sound_points : at_most_one_each l;
  sound_created : forall k u, In (Created k u) l -> (u < fresh h)%nat;
  sound_held_preview : forall u, held_preview h = Some u -> (u < fresh h)%nat;
  sound_held_result : forall u, held_result h = Some u -> (u < fresh h)%nat;
  sound_distinct :
    forall u, holds (held_preview h) u = true -> holds (held_result h) u = false;
  sound_once :
    forall u, mem u (once h) = true ->
      (u < fresh h)%nat /\
      holds (held_preview h) u = false /\ holds (held_result h) u = false;
  sound_count :
    forall u,
      revocations u l
      = if holds (held_preview h) u || holds (held_result h) u then 0%nat
        else if mem u (once h) then 1%nat
        else if (u <? fresh h)%nat then 2%nat
        else 0%nat
}.

(** The replay agrees with the session, and no URL is waiting for its
    second revocation. *)
Definition tracked (w : World) : Prop :=
  replay (log w)
  = Some (mkHandles (previewUrl (session w)) (resultUrl (session w))
            (nextUrl w) []).

(** Everything but the log. *)
Definition state_of (w : World)
    : Session * option Controller * list Controller * Controller
      * list (Url * Blob) * Url :=
  (session w, pollControllerRef w, aborted w, nextController w,
   objectUrls w, nextUrl w).

End Page.

(** ** Sample values *)

Module Samples.

Definition photo : File := mkFile "face.png" "image/png" [Byte.x89; Byte.x50].
Definition other_photo : File := mkFile "group.jpg" "image/jpeg" [Byte.xff; Byte.xd8].

Definition backend : option string := Some "http://localhost:5000".

Definition json_response (st : Z) (v : Json) : Response :=
  mkResponse st (Some "application/json") (Delivered (JsonText v)).

(** A backend that answers every upload with the same response. *)
Definition always (r : Response) : AnalyzeRoute.ProxyRequest -> FetchOutcome :=
  fun _ => Resolves r.


(** The reply of the result route while the backend is still working. *)
Definition processing_reply : Response :=
  json_response 202 (JObj [("status", JStr "processing")]).

(** Nobody cancels, and the network answers [r]. *)
Definition undisturbed (r : Response) : Page.Attempt :=
  Page.mkAttempt (Resolves r) false false false.

(** A backend that never finishes. *)
Definition never_done : nat -> Page.Attempt :=
  fun _ => undisturbed processing_reply.

(** A finished result: ten bytes of image. *)
Definition ten_bytes : list Byte.byte :=
  [Byte.x89; Byte.x50; Byte.x4e; Byte.x47; Byte.x0d;
   Byte.x0a; Byte.x1a; Byte.x0a; Byte.x00; Byte.x00].

Definition png_reply : Response :=
  mkResponse 200 (Some "image/png") (Delivered (Raw ten_bytes)).


(** The same reply as the backend itself sends it. *)
Definition backend_says (r : Response) : string -> FetchOutcome :=
  fun _ => Resolves r.

(** The analyze route accepting an upload. *)
Definition accepted : FetchOutcome :=
  Resolves (json_response 202 (JObj [("taskId", JStr "task-1")])).

(** The first query is answered with a failure status; while the loop reads
    the body of that answer, the controller is aborted. *)
Definition cancelled_while_reading_failure : nat -> Page.Attempt :=
  fun _ =>
    Page.mkAttempt
      (Resolves (json_response 500 (JObj [("error", JStr "model crashed")])))
      false true false.

(** A file is chosen and checked, the result arrives, and then the file
    dialog is opened again and closed without a choice. *)
Definition result_then_no_file : list Page.Action :=
  [Page.FileChange (Some photo);
   Page.SubmitBegin;
   Page.SubmitResume accepted;
   Page.PollAttempt 0%nat (JStr "task-1") 0%nat (undisturbed png_reply);
   Page.FileChange None].

(** Two files are chosen, one after the other. *)
Definition two_selections : list Page.Action :=
  [Page.FileChange (Some photo); Page.FileChange (Some other_photo)].

End Samples.

(** ** What the page shows *)

Module View.

Import Page.
#[local] Open Scope list_scope.

(** [statusCopy] *)
Definition statusCopy (s : Status) : string :=
  match s with
  | idle => "Upload an image to start."
  | uploading => "Uploading photo..."
  | processing => "Model is checking for hijab..."
  | success => "Processing complete!"
  | error => "Something went wrong."
  end.

(** The [disabled] attribute of the submit button:
    [!selectedFile || status === "uploading" || status === "processing"]. *)
Definition submit_disabled (s : Session) : bool :=
  match selectedFile s with
  | None => true
  | Some _ =>
      match status s with
      | uploading | processing => true
      | _ => false
      end
  end.

(** The text of the submit button. *)
Definition submit_label (s : Session) : string :=
  match status s with
  | processing | uploading => "Checking..."
  | _ => "Check photo"
  end.

(** What React makes of a value used as a child of an element: its text
    leaves, in order.  [null] and booleans give none, a string or a number
    gives itself, an array gives the leaves of its items; for an object
    React throws ([None]). *)
Fixpoint child_leaves (v : Json) : option (list Json) :=
  match v with
  | JNull | JBool _ => Some []
  | JNum _ | JInfinity _ | JStr _ => Some [v]
  | JArr items =>
      (fix all (l : list Json) : option (list Json) :=
         match l with
         | [] => Some []
         | x :: rest =>
             match child_leaves x, all rest with
             | Some a, Some b => Some (a ++ b)
             | _, _ => None
             end
         end) items
  | JObj _ => None
  end.

(** The line under the status text. *)
Inductive Panel : Type :=
| Explanation                      (* the standing text *)
| ErrorLine (leaves : list Json)   (* the paragraph with [{errorMessage}] *)
| RenderThrows.                    (* the render throws *)

(** [{errorMessage ? <p>{errorMessage}</p> : <p>...</p>}] *)
Definition shown_error (s : Session) : Panel :=
  if truthy (errorMessage s) then
    match child_leaves (errorMessage s) with
    | Some leaves => ErrorLine leaves
    | None => RenderThrows
    end
  else Explanation.

End View.

(** ** Vocabulary for further statements *)

Module Laws.

Import Page.

#[local] Open Scope list_scope.

(** How many events of a log satisfy [P]. *)
Fixpoint count (P : Event -> bool) (l : list Event) : nat :=
  match l with
  | [] => 0%nat
  | e :: older => ((if P e then 1 else 0) + count P older)%nat
  end.

Definition is_set_status (e : Event) : bool :=
  match e with SetStatus _ => true | _ => false end.

(** Every controller made so far is the one the page points to, or is
    aborted. *)
Definition one_live_loop (w : World) : Prop :=
  forall c,
    (c < nextController w)%nat ->
    pollControllerRef w = Some c \/ is_aborted c w = true.

(** The preview shown is the preview of the selected file, and the URLs the
    session holds have not been revoked. *)
Definition handles_live (w : World) : Prop :=
  match previewUrl (session w), selectedFile (session w) with
  | Some p, Some f => In (p, blob_of_file f) (objectUrls w)
  | None, None => True
  | _, _ => False
  end /\
  match resultUrl (session w) with
  | Some r => exists b, In (r, b) (objectUrls w)
  | None => True
  end.

(** The specification's reading of [handleSubmit] without a file: the
    status becomes [error]. *)
Definition missing_file_is_an_error : Prop :=
  forall w : World,
    selectedFile (session w) = None ->
    status (session (exec handleSubmit_begin w)) = error.

(** The reply of the result route to a backend failure with message [m]. *)
Definition failure_reply (st : Z) (m : Json) : Response :=
  mkResponse st (Some "application/json")
    (Delivered (JsonText (serialized (error_body m)))).

End Laws.

(** * Properties *)

(** ** Values written as JSON *)

Lemma serialized_truthy (v : Json) :
  truthy (serialized v) = truthy v && negb (infinite v).
Proof.
  destruct v as [| b | n | neg | s | items | fields]; simpl;
    rewrite ?andb_true_r; reflexivity.
Qed.

Lemma assoc_serialized (k : string) (fields : list (string * Json)) :
  assoc k (map (fun kv => (fst kv, serialized (snd kv))) fields)
  = option_map serialized (assoc k fields).
Proof.
  induction fields as [| [k' v] rest IH]; [reflexivity |].
  simpl. destruct (String.eqb k k'); [reflexivity | exact IH].
Qed.

Lemma get_serialized (k : string) (v : Json) :
  get k (serialized v) = option_map serialized (get k v).
Proof.
  destruct v as [| b | n | neg | s | items | fields]; try reflexivity.
  apply assoc_serialized.
Qed.

Lemma or_else_truthy (v : option Json) (d : string) :
  d <> "" -> truthy (or_else v d) = true.
Proof.
  intros Hd.
  assert (H : truthy (JStr d) = true).
  { cbn. destruct (String.eqb_spec d "") as [E | _]; [contradiction | reflexivity]. }
  destruct v as [x |]; [| exact H].
  unfold or_else. destruct (truthy x) eqn:E; [exact E | exact H].
Qed.

(** What a reader makes of a value that was chosen with [|| d], written as
    JSON, and is chosen with [|| d] again. *)
Lemma or_else_serialized (e : option Json) (d : string) :
  or_else (Some (serialized (or_else e d))) d
  = or_else (option_map serialized e) d.
Proof.
  destruct e as [x |];
    [| unfold or_else; cbn; destruct (String.eqb d ""); reflexivity].
  unfold or_else, option_map.
  destruct (truthy x) eqn:Hx.
  - reflexivity.
  - rewrite (serialized_truthy x), Hx. cbn [andb serialized truthy].
    destruct (String.eqb d ""); reflexivity.
Qed.

(** ** The [/api/analyze] route *)

Section AnalyzeFacts.

Import AnalyzeRoute.




End AnalyzeFacts.

(** ** The [/api/result/:taskId] route *)

Lemma NextResponse_json_some (v : Json) (st : Z) (r : Response) :
  NextResponse_json v st = Some r ->
  r = mkResponse st (Some "application/json"%string)
        (Delivered (JsonText (serialized v))) /\
  200 <= st <= 599.
Proof.
  unfold NextResponse_json, constructor_accepts.
  destruct (200 <=? st) eqn:Hlo; [| discriminate].
  destruct (st <=? 599) eqn:Hhi; [| discriminate].
  destruct (null_body_status st); [discriminate |].
  cbn. intros [= <-]. split; [reflexivity |].
  apply Z.leb_le in Hlo. apply Z.leb_le in Hhi. lia.
Qed.

(** What [relay] returns is either built by [NextResponse.json] or the
    binary answer with status 200. *)
Lemma relay_shape (fetch : string -> FetchOutcome) (encode : string -> string)
    (base taskId : string) (r : Response) :
  ResultRoute.relay fetch encode base taskId = Some r ->
  200 <= Http.status r <= 599 /\
  ((content_type r = Some "application/json"%string /\
    exists v, body r = Delivered (JsonText v)) \/
   Http.status r = 200).
Proof.
  unfold ResultRoute.relay.
  destruct (fetch _) as [response |]; [| discriminate].
  destruct (Http.status response =? 202).
  - intros H. apply NextResponse_json_some in H. destruct H as [-> H].
    cbn. split; [lia | left; split; [reflexivity | eexists; reflexivity]].
  - destruct (negb (ok response)).
    + intros H. apply NextResponse_json_some in H. destruct H as [-> H].
      cbn. split; [exact H | left; split; [reflexivity | eexists; reflexivity]].
    + destruct (includes _ _).
      * destruct (json response); [| discriminate].
        intros H. apply NextResponse_json_some in H. destruct H as [-> H].
        cbn. split; [lia | left; split; [reflexivity | eexists; reflexivity]].
      * destruct (arrayBuffer response); [| discriminate].
        destruct (header_value_ok _); [| discriminate].
        intros [= <-]. cbn. split; [lia | right; reflexivity].
Qed.

Lemma GET_shape (cfg : option string) (fetch : string -> FetchOutcome)
    (encode : string -> string) (taskId : string) :
  exists r,
    ResultRoute.GET cfg fetch encode taskId = Some r /\
    200 <= Http.status r <= 599 /\
    ((content_type r = Some "application/json"%string /\
      exists v, body r = Delivered (JsonText v)) \/
     Http.status r = 200).
Proof.
  unfold ResultRoute.GET.
  destruct (ResultRoute.backend_configured cfg) as [base |].
  - destruct (String.eqb taskId "").
    + eexists. split; [reflexivity |]. cbn.
      split; [lia | left; split; [reflexivity | eexists; reflexivity]].
    + destruct (ResultRoute.relay fetch encode base taskId) as [resp |] eqn:Hrelay.
      * exists resp. split; [reflexivity |]. exact (relay_shape _ _ _ _ _ Hrelay).
      * eexists. split; [reflexivity |]. cbn.
        split; [lia | left; split; [reflexivity | eexists; reflexivity]].
  - eexists. split; [reflexivity |]. cbn.
    split; [lia | left; split; [reflexivity | eexists; reflexivity]].
Qed.

Lemma configured_base (base : string) (taskId : string)
    (fetch : string -> FetchOutcome) (encode : string -> string) :
  base <> ""%string -> taskId <> ""%string ->
  ResultRoute.GET (Some base) fetch encode taskId
  = match ResultRoute.relay fetch encode base taskId with
    | Some resp => Some resp
    | None => ResultRoute.backend_unreachable
    end.
Proof.
  intros Hbase Htask. unfold ResultRoute.GET, ResultRoute.backend_configured.
  destruct (String.eqb_spec base "") as [E | _]; [contradiction |].
  destruct (String.eqb_spec taskId "") as [E | _]; [contradiction |].
  reflexivity.
Qed.

(** ** The page component *)

Import Page.
#[local] Open Scope list_scope.

Lemma record_nil (w : World) : record [] w = w.
Proof. destruct w; reflexivity. Qed.

Lemma record_app (xs ys : list Event) (w : World) :
  record ys (record xs w) = record (xs ++ ys) w.
Proof.
  unfold record; simpl. rewrite rev_app_distr, app_assoc. reflexivity.
Qed.

Lemma trace_record (events : list Event) (w : World) :
  trace (record events w) = trace w ++ events.
Proof.
  unfold trace, record; simpl. rewrite rev_app_distr, rev_involutive.
  reflexivity.
Qed.

(** *** Reasoning about state-passing code *)

Lemma wp_bind {A B : Type} (m : M A) (k : A -> M B)
    (Q : B -> World -> Prop) (w : World) :
  wp m (fun a w' => wp (k a) Q w') w -> wp (bind m k) Q w.
Proof. unfold wp, bind. destruct (m w); auto. Qed.

Lemma wp_pure {A : Type} (m : M A) (Q : A -> World -> Prop) (w : World)
    (a : A) (w' : World) :
  m w = (a, w') -> Q a w' -> wp m Q w.
Proof. unfold wp. intros ->. auto. Qed.

Lemma wp_weaken {A : Type} (m : M A) (Q Q' : A -> World -> Prop) (w : World) :
  (forall a w', Q a w' -> Q' a w') -> wp m Q w -> wp m Q' w.
Proof. unfold wp. auto. Qed.

Lemma existsb_abort (c : Controller) (l : list Controller) :
  existsb (Nat.eqb c) (if existsb (Nat.eqb c) l then l else c :: l) = true.
Proof.
  destruct (existsb (Nat.eqb c) l) eqn:E; [exact E |].
  simpl. rewrite Nat.eqb_refl. reflexivity.
Qed.

Ltac head_of t :=
  lazymatch t with
  | ?f _ => head_of f
  | _ => t
  end.

Ltac wp_tidy :=
  unfold is_aborted in *;
  cbn [session pollControllerRef aborted nextController objectUrls nextUrl log
       selectedFile previewUrl resultUrl status errorMessage
       reply abort_during_fetch abort_during_body abort_during_sleep
       same_url] in *;
  rewrite ?existsb_abort, ?Nat.eqb_refl in *.

Ltac wp_prim := eapply wp_pure; [reflexivity | cbv beta].

Ltac wp_case b :=
  first [ match goal with H : b = _ |- _ => rewrite H end
        | destruct b eqn:? ].

Ltac wp_step :=
  lazymatch goal with
  | |- wp (bind _ _) _ _ => apply wp_bind
  | |- wp (ret _) _ _ => wp_prim
  | |- wp (read _) _ _ => wp_prim
  | |- wp (emit _) _ _ => wp_prim
  | |- wp (update_session _) _ _ => wp_prim
  | |- wp (abort _) _ _ => wp_prim
  | |- wp (createObjectURL _ _) _ _ => wp_prim
  | |- wp (revokeObjectURL _) _ _ => wp_prim
  | |- wp new_AbortController _ _ => wp_prim
  | |- wp (set_pollControllerRef _) _ _ => wp_prim
  | |- wp (match (if ?b then _ else _) with _ => _ end) _ _ => wp_case b
  | |- wp (match (match ?y with _ => _ end) with _ => _ end) _ _ => wp_case y
  | |- wp (if ?b then _ else _) _ _ => wp_case b
  | |- wp (match ?x with _ => _ end) _ _ => wp_case x
  | |- wp ?m _ _ => let h := head_of m in unfold h
  end;
  wp_tidy.

Ltac wp_go := repeat wp_step.

(** *** Logs that only grow *)

Lemma grown_refl (P : Event -> bool) (l : list Event) : grown P l l.
Proof. exists []. split; reflexivity. Qed.

Lemma grown_cons (P : Event -> bool) (old l : list Event) (e : Event) :
  P e = true -> grown P old l -> grown P old (e :: l).
Proof.
  intros He (events & -> & Hall). exists (e :: events). split.
  - reflexivity.
  - simpl. rewrite He, Hall. reflexivity.
Qed.

Lemma grown_trans (P : Event -> bool) (l1 l2 l3 : list Event) :
  grown P l1 l2 -> grown P l2 l3 -> grown P l1 l3.
Proof.
  intros (e1 & -> & H1) (e2 & -> & H2). exists (e2 ++ e1). split.
  - rewrite app_assoc. reflexivity.
  - rewrite forallb_app, H1, H2. reflexivity.
Qed.

Lemma grown_only_added (P : Event -> bool) (w w' : World) :
  grown P (log w) (log w') -> only_added P w w'.
Proof.
  intros (events & E & Hall). exists (rev events). split.
  - unfold trace. rewrite E, rev_app_distr. reflexivity.
  - rewrite forallb_forall in *. intros e He. apply Hall.
    apply in_rev. exact He.
Qed.

Ltac grown_tac :=
  repeat (apply grown_cons; [reflexivity |]); try apply grown_refl.

(** *** The loop's control flow *)

Lemma try_catch_completion (c : Controller) (taskId : Json) (attempt : nat)
    (a : Attempt) (w : World) :
  wp (try_catch c taskId attempt a)
     (fun r w' => (r = Return \/ r = Continue) /\ grown quiet (log w) (log w')) w.
Proof.
  wp_go; (split; [auto | grown_tac]).
Qed.

Lemma for_body_quiet (c : Controller) (taskId : Json) (attempt : nat)
    (a : Attempt) (w : World) :
  wp (for_body c taskId attempt a)
     (fun _ w' => grown quiet (log w) (log w')) w.
Proof.
  wp_go; grown_tac.
Qed.

Lemma for_loop_quiet (c : Controller) (taskId : Json) (env : nat -> Attempt)
    (attempts : list nat) :
  forall w,
    wp (for_loop c taskId env attempts)
       (fun _ w' => grown quiet (log w) (log w')) w.
Proof.
  induction attempts as [| attempt rest IH]; intros w.
  - wp_prim. apply grown_refl.
  - cbn [for_loop]. apply wp_bind.
    eapply wp_weaken; [| apply for_body_quiet].
    intros r w1 H1.
    destruct r; try (wp_prim; exact H1);
      (eapply wp_weaken; [| apply IH]);
      intros ? w2 H2; exact (grown_trans _ _ _ _ H1 H2).
Qed.

Lemma pollForResult_quiet (taskId : Json) (env : nat -> Attempt) (w : World) :
  wp (pollForResult taskId env)
     (fun _ w' => grown quiet (log w) (log w')) w.
Proof.
  unfold pollForResult. apply wp_bind.
  apply (wp_weaken poll_start
           (fun _ w1 => grown quiet (log w) (log w1))).
  - intros c w1 H1. apply wp_bind.
    eapply wp_weaken; [| apply for_loop_quiet].
    intros r w2 H2.
    assert (H12 := grown_trans _ _ _ _ H1 H2).
    destruct r; try (wp_prim; exact H12);
      (apply (wp_weaken (after_loop c)
                (fun _ w3 => grown quiet (log w2) (log w3)));
       [ intros ? w3 H3; exact (grown_trans _ _ _ _ H12 H3)
       | wp_go; grown_tac ]).
  - wp_go; grown_tac.
Qed.

(** *** A backend that never finishes *)

Lemma run_pair {A : Type} (m : M A) (w : World) (a : A) (w' : World) :
  wp m (fun x v => (x, v) = (a, w')) w -> m w = (a, w').
Proof. unfold wp. rewrite <- surjective_pairing. auto. Qed.

(** One iteration against a 202 reply, with nobody cancelling. *)
Lemma for_body_pending (c : Controller) (taskId : Json) (attempt : nat)
    (r : Response) (w : World) :
  Http.status r = 202 ->
  is_aborted c w = false ->
  for_body c taskId attempt (mkAttempt (Resolves r) false false false) w
  = (Continue, record (pending_round c taskId attempt) w).
Proof.
  intros Hstatus Hlive.
  assert (Hs : (Http.status r =? 202) = true) by (apply Z.eqb_eq; exact Hstatus).
  apply run_pair. wp_go. reflexivity.
Qed.

Lemma for_loop_pending (c : Controller) (taskId : Json) (env : nat -> Attempt)
    (attempts : list nat) :
  always_pending env ->
  forall w,
    is_aborted c w = false ->
    for_loop c taskId env attempts w
    = (Normal, record (pending_rounds c taskId attempts) w).
Proof.
  intros Henv.
  induction attempts as [| attempt rest IH]; intros w Hlive.
  - cbn. rewrite record_nil. reflexivity.
  - destruct (Henv attempt) as (r & Ha & Hstatus).
    cbn [for_loop]. unfold bind at 1.
    rewrite Ha, (for_body_pending c taskId attempt r w Hstatus Hlive).
    rewrite IH by exact Hlive.
    rewrite record_app. reflexivity.
Qed.

(** The loop against a backend that never finishes: what it does, in
    order.  Every one of the 45 queries, the last one too, is followed by
    a sleep of 2000 ms between two cancellation tests; only then comes the
    test after the loop and the time-out. *)
Lemma pollForResult_pending (taskId : Json) (env : nat -> Attempt) (w : World) :
  always_pending env ->
  is_aborted (nextController w) (exec poll_start w) = false ->
  exec (pollForResult taskId env) w
  = exec (fail_with (JStr "Timed out while waiting for the model."))
      (record (pending_rounds (nextController w) taskId (seq 0 MAX_POLLS)
                 ++ [Checked AfterLoop (nextController w) false])
         (exec poll_start w)).
Proof.
  intros Henv Hlive.
  unfold exec at 1. unfold pollForResult, bind at 1.
  assert (Hstart : poll_start w = (nextController w, exec poll_start w)).
  { unfold exec, poll_start, abort_current, bind, read, new_AbortController.
    cbn. destruct (pollControllerRef w); reflexivity. }
  rewrite Hstart. unfold bind at 1.
  rewrite (for_loop_pending _ _ _ _ Henv _ Hlive).
  rewrite <- record_app.
  set (w1 := record (pending_rounds _ _ _) _).
  assert (Hlive1 : is_aborted (nextController w) w1 = false) by exact Hlive.
  clearbody w1.
  unfold after_loop, check, bind, read, emit, ret. cbn [fst snd].
  rewrite Hlive1. reflexivity.
Qed.

Lemma trace_fail_with (m : Json) (w : World) :
  trace (exec (fail_with m) w) = trace w ++ [SetErrorMessage m; SetStatus error].
Proof.
  unfold trace. cbn. rewrite <- app_assoc. reflexivity.
Qed.

(** C2, what the code does: against a backend that answers 202 to every
    query, with nobody cancelling, the loop makes exactly 45 queries and
    then reports the time-out, but it sleeps 45 times, not 44: the 2000 ms
    sleep between two cancellation tests follows every query, the last
    one (attempt 44) included, and only after that last sleep does the
    loop end and the time-out message get set. *)
Theorem C2_never_done_backend :
  forall (taskId : Json) (env : nat -> Attempt) (w : World),
    always_pending env ->
    is_aborted (nextController w) (exec poll_start w) = false ->
    let c := nextController w in
    let rounds := pending_rounds c taskId (seq 0 MAX_POLLS) in
    let ending :=
      [Checked AfterLoop c false;
       SetErrorMessage (JStr "Timed out while waiting for the model.");
       SetStatus error] in
    trace (exec (pollForResult taskId env) w)
    = trace (exec poll_start w) ++ rounds ++ ending /\
    List.length (filter is_query rounds) = 45%nat /\
    List.length (filter is_sleep rounds) = 45%nat /\
    rounds
    = pending_rounds c taskId (seq 0 44)
      ++ [Checked LoopHead c false;
          Query c taskId 44;
          Checked PendingBeforeSleep c false;
          Slept PendingSleep 2000;
          Checked PendingAfterSleep c false].
Proof.
  intros taskId env w Henv Hlive c rounds ending.
  split; [| split; [| split]].
  - rewrite (pollForResult_pending taskId env w Henv Hlive).
    rewrite trace_fail_with, trace_record.
    rewrite <- !app_assoc. reflexivity.
  - reflexivity.
  - reflexivity.
  - reflexivity.
Qed.

Lemma C2_never_done_backend_witness :
  List.length (filter is_sleep
            (trace (exec (pollForResult (JStr "task-1") Samples.never_done)
                      initial))) = 45%nat /\
  List.length (filter is_query
            (trace (exec (pollForResult (JStr "task-1") Samples.never_done)
                      initial))) = 45%nat.
Proof.
  assert (Henv : always_pending Samples.never_done).
  { intros attempt. exists Samples.processing_reply. split; reflexivity. }
  destruct (C2_never_done_backend (JStr "task-1") Samples.never_done initial
              Henv eq_refl) as (Htrace & _).
  rewrite Htrace. split; reflexivity.
Defined.

(** *** A reply that ends the loop *)

Lemma wp_for_loop_return (c : Controller) (taskId : Json)
    (env : nat -> Attempt) (attempt : nat) (rest : list nat)
    (Q : Completion -> World -> Prop) (w : World) :
  wp (for_body c taskId attempt (env attempt))
     (fun res w' => res = Return /\ Q Return w') w ->
  wp (for_loop c taskId env (attempt :: rest)) Q w.
Proof.
  unfold wp. cbn [for_loop]. unfold bind.
  destruct (for_body c taskId attempt (env attempt) w) as [res w'].
  cbn [fst snd]. intros [-> H]. exact H.
Qed.

Ltac trace_tac :=
  unfold trace; cbn [log rev]; rewrite <- ?app_assoc; reflexivity.

(** C5, as stated, fails.  An empty binary body at status 200 gives the
    message "Received an empty file.", not "empty result"; and a binary
    body at the success status 202 is no result at all: the loop goes on
    polling, and against a backend that keeps sending it, ends in the
    time-out with no result handle. *)
Lemma C5_message_and_202 :
  let empty_png := mkResponse 200 (Some "image/png") (Delivered (Raw [])) in
  let early_png :=
    mkResponse 202 (Some "image/png") (Delivered (Raw [Byte.x89; Byte.x50])) in
  let w1 := exec (pollForResult (JStr "task-1")
                    (fun _ => Samples.undisturbed empty_png)) initial in
  let w2 := exec (pollForResult (JStr "task-1")
                    (fun _ => Samples.undisturbed early_png)) initial in
  errorMessage (session w1) = JStr "Received an empty file." /\
  errorMessage (session w1) <> JStr "empty result" /\
  resultUrl (session w2) = None /\
  status (session w2) = error /\
  errorMessage (session w2) = JStr "Timed out while waiting for the model.".
Proof.
  cbv zeta. repeat split; try reflexivity.
  vm_compute. discriminate.
Qed.

(** C5, amended: a reply with an ok status other than 202 and a content
    type that does not contain "application/json", whose body arrives
    while nobody cancels, ends the loop at once (no further query).  If
    the body is empty, the error message becomes "Received an empty file."
    and the status [error], and the result handle is left alone.
    Otherwise a fresh object URL is created for a blob that holds exactly
    the bytes of the body with the reply's content type, it becomes the
    result handle (the previous one, if any, is revoked first), and the
    status becomes [success]. *)
Theorem C5_binary_reply :
  forall (c : Controller) (taskId : Json) (env : nat -> Attempt)
         (attempt : nat) (rest : list nat) (r : Response) (p : Payload)
         (w : World),
    env attempt = mkAttempt (Resolves r) false false false ->
    ok r = true -> Http.status r <> 202 ->
    includes (content_type_or_empty r) "application/json" = false ->
    body r = Delivered p ->
    is_aborted c w = false ->
    let blob := mkBlob p (content_type_or_empty r) in
    let asked := [Checked LoopHead c false; Query c taskId attempt] in
    let revoked :=
      match resultUrl (session w) with
      | Some old => [Revoked old]
      | None => []
      end in
    let out := for_loop c taskId env (attempt :: rest) w in
    fst out = Return /\
    if size_zero blob then
      trace (snd out)
      = trace w ++ asked
        ++ [SetErrorMessage (JStr "Received an empty file."); SetStatus error] /\
      status (session (snd out)) = error /\
      errorMessage (session (snd out)) = JStr "Received an empty file." /\
      resultUrl (session (snd out)) = resultUrl (session w) /\
      objectUrls (snd out) = objectUrls w
    else
      trace (snd out)
      = trace w ++ asked ++ revoked
        ++ [Created Result (nextUrl w); SetResultUrl (Some (nextUrl w));
            SetStatus success] /\
      status (session (snd out)) = success /\
      errorMessage (session (snd out)) = errorMessage (session w) /\
      resultUrl (session (snd out)) = Some (nextUrl w) /\
      hd_error (objectUrls (snd out)) = Some (nextUrl w, blob).
Proof.
  intros c taskId env attempt rest r p w Henv Hok Hstatus Hct Hbody Hlive
    blob asked revoked out.
  assert (Hs : (Http.status r =? 202) = false) by (apply Z.eqb_neq; exact Hstatus).
  assert (Hnok : negb (ok r) = false) by (rewrite Hok; reflexivity).
  subst out.
  apply (wp_for_loop_return c taskId env attempt rest
    (fun res w' =>
       res = Return /\
       if size_zero blob then
         trace w' = trace w ++ asked
           ++ [SetErrorMessage (JStr "Received an empty file."); SetStatus error] /\
         status (session w') = error /\
         errorMessage (session w') = JStr "Received an empty file." /\
         resultUrl (session w') = resultUrl (session w) /\
         objectUrls w' = objectUrls w
       else
         trace w' = trace w ++ asked ++ revoked
           ++ [Created Result (nextUrl w); SetResultUrl (Some (nextUrl w));
               SetStatus success] /\
         status (session w') = success /\
         errorMessage (session w') = errorMessage (session w) /\
         resultUrl (session w') = Some (nextUrl w) /\
         hd_error (objectUrls w') = Some (nextUrl w, blob))).
  rewrite Henv. subst blob asked revoked.
  wp_go;
    repeat match goal with
           | H : size_zero _ = _ |- _ => rewrite H
           | H : resultUrl (session w) = _ |- _ => rewrite H
           end;
    repeat split; try reflexivity; try trace_tac.
Qed.

Lemma C5_binary_reply_witness :
  let w := exec poll_start initial in
  let out := for_loop 0%nat (JStr "task-1")
               (fun _ => Samples.undisturbed Samples.png_reply)
               (seq 0 MAX_POLLS) w in
  fst out = Return /\
  status (session (snd out)) = success /\
  resultUrl (session (snd out)) = Some 0%nat /\
  hd_error (objectUrls (snd out))
  = Some (0%nat, mkBlob (Raw Samples.ten_bytes) "image/png").
Proof.
  pose proof (C5_binary_reply 0%nat (JStr "task-1")
                (fun _ => Samples.undisturbed Samples.png_reply)
                0%nat (seq 1 44) Samples.png_reply (Raw Samples.ten_bytes)
                (exec poll_start initial)
                eq_refl eq_refl ltac:(discriminate) eq_refl eq_refl eq_refl)
    as H.
  cbn in H. destruct H as (H1 & _ & H2 & _ & H3 & H4).
  repeat split; assumption.
Defined.




(** *** Cancelling while a failure reply is being read *)

Lemma for_body_cancel (c : Controller) (taskId : Json) (attempt : nat)
    (a : Attempt) (w : World) :
  wp (for_body c taskId attempt a)
     (fun r w' =>
        (r = Continue /\ session w' = session w) \/
        (r = Return /\
         (is_aborted c w' = false \/
          session w' = session w \/
          cancelled_reading_failure a))) w.
Proof.
  destruct a as [rep af ab asl]. unfold cancelled_reading_failure.
  cbn [reply abort_during_fetch abort_during_body].
  wp_go;
    first [ left; split; reflexivity
          | right; split; [reflexivity |];
            first [ left; assumption
                  | right; left; reflexivity
                  | right; right; split; [reflexivity | split; [reflexivity |]];
                    eexists; split; [reflexivity | split];
                    [ match goal with H : negb (ok _) = true |- _ =>
                        apply negb_true_iff in H; exact H end
                    | match goal with H : (_ =? 202) = false |- _ =>
                        apply Z.eqb_neq in H; exact H end ] ] ].
Qed.

Lemma for_loop_cancel (c : Controller) (taskId : Json) (env : nat -> Attempt)
    (attempts : list nat) :
  forall w,
    wp (for_loop c taskId env attempts)
       (fun r w' =>
          (r = Normal /\ session w' = session w) \/
          (r = Return /\
           (is_aborted c w' = false \/
            session w' = session w \/
            exists attempt,
              In attempt attempts /\ cancelled_reading_failure (env attempt)))) w.
Proof.
  induction attempts as [| attempt rest IH]; intros w.
  - wp_prim. left. split; reflexivity.
  - cbn [for_loop]. apply wp_bind.
    eapply wp_weaken; [| apply for_body_cancel].
    intros r w1 [[-> Hs] | [-> H]].
    + eapply wp_weaken; [| apply IH].
      intros r2 w2 [[-> Hs2] | [-> H2]].
      * left. split; [reflexivity | congruence].
      * right. split; [reflexivity |].
        destruct H2 as [H2 | [H2 | (k & Hin & Hk)]].
        -- left. exact H2.
        -- right. left. congruence.
        -- right. right. exists k. split; [right; exact Hin | exact Hk].
    + wp_prim. right. split; [reflexivity |].
      destruct H as [H | [H | H]].
      * left. exact H.
      * right. left. exact H.
      * right. right. exists attempt. split; [left; reflexivity | exact H].
Qed.

Lemma pollForResult_cancel (taskId : Json) (env : nat -> Attempt) (w : World) :
  let w' := exec (pollForResult taskId env) w in
  is_aborted (nextController w) w' = false \/
  session w' = session w \/
  exists attempt,
    (attempt < MAX_POLLS)%nat /\ cancelled_reading_failure (env attempt).
Proof.
  cbv zeta.
  change (wp (pollForResult taskId env)
            (fun _ w' =>
               is_aborted (nextController w) w' = false \/
               session w' = session w \/
               exists attempt,
                 (attempt < MAX_POLLS)%nat /\
                 cancelled_reading_failure (env attempt)) w).
  unfold pollForResult. apply wp_bind.
  apply (wp_weaken poll_start
           (fun c w1 => c = nextController w /\ session w1 = session w)).
  - intros c w1 [-> Hs1]. apply wp_bind.
    eapply wp_weaken; [| apply for_loop_cancel].
    intros r w2 [[-> Hs2] | [-> H]].
    + apply (wp_weaken (after_loop (nextController w))
               (fun _ w3 =>
                  is_aborted (nextController w) w3 = false \/
                  session w3 = session w2)).
      * intros ? w3 [H | H]; [left; exact H | right; left; congruence].
      * wp_go; [right; reflexivity | left; assumption].
    + wp_prim. destruct H as [H | [H | (k & Hin & Hk)]].
      * left. exact H.
      * right. left. congruence.
      * right. right. exists k. split; [| exact Hk].
        apply in_seq in Hin. lia.
  - wp_go; split; reflexivity.
Qed.

(** C1, what the code does at the failing input: a file is chosen and
    submitted, the upload is accepted and the loop starts with controller
    0; the first query is answered with status 500, and while the loop is
    reading that answer's body the controller is aborted.  The loop then
    still sets the error message and the status: after [Abort 0] the log
    goes on with two state setters.  This is the only way: a run of
    [pollForResult] that ends with its controller aborted has left the
    session as it was, unless the controller was aborted during the reading
    of a failure reply. *)
Theorem C1_cancelled_loop_still_reports :
  (let w := exec (handleSubmit Samples.accepted
                    Samples.cancelled_while_reading_failure)
              (exec (handleFileChange (Some Samples.photo)) initial) in
   is_aborted 0%nat w = true /\
   status (session w) = error /\
   errorMessage (session w) = JStr "Processing failed." /\
   skipn 10 (trace w)
   = [SetStatus processing;
      Checked LoopHead 0%nat false;
      Query 0%nat (JStr "task-1") 0%nat;
      Abort 0%nat;
      SetErrorMessage (JStr "Processing failed.");
      SetStatus error]) /\
  (forall (taskId : Json) (env : nat -> Attempt) (w : World),
     let w' := exec (pollForResult taskId env) w in
     is_aborted (nextController w) w' = false \/
     session w' = session w \/
     exists attempt,
       (attempt < MAX_POLLS)%nat /\ cancelled_reading_failure (env attempt)).
Proof.
  split.
  - cbv zeta. repeat split; vm_compute; reflexivity.
  - exact pollForResult_cancel.
Qed.

(** C10: the statement placed after the [try ... catch] statement in the
    loop is never run.  The [try ... catch] statement always ends by
    [return] or by [continue], never normally; and in every run of
    [pollForResult], against any answers of the network and any
    cancellations, none of the events of that trailing statement (its
    sleep, its two cancellation tests) is added to the log, so that every
    sleep of the loop is the one of the 202 branch. *)
Theorem C10_trailing_sleep_unreachable :
  forall (taskId : Json) (env : nat -> Attempt) (w : World),
    only_added quiet w (exec (pollForResult taskId env) w) /\
    (forall c attempt a w0,
       fst (try_catch c taskId attempt a w0) = Return \/
       fst (try_catch c taskId attempt a w0) = Continue).
Proof.
  intros taskId env w. split.
  - apply grown_only_added. exact (pollForResult_quiet taskId env w).
  - intros c attempt a w0.
    exact (proj1 (try_catch_completion c taskId attempt a w0)).
Qed.

(** *** The session *)

(** C3, what the code does at the failing input: after a result has
    arrived (status [success], a result handle), opening the file dialog
    and closing it without a choice runs [handleFileChange] with no file,
    which sets the status to [idle] and returns before it clears the
    result: the reachable session has a result handle and is not in
    status [success]. *)
Theorem C3_result_survives_empty_selection :
  let w := exec (run Samples.result_then_no_file) initial in
  reachable w /\
  status (session w) = idle /\
  resultUrl (session w) = Some 1%nat /\
  ~ result_iff_success (session w).
Proof.
  cbv zeta. split; [| split; [| split]].
  - exists Samples.result_then_no_file. reflexivity.
  - vm_compute. reflexivity.
  - vm_compute. reflexivity.
  - intros [H _].
    assert (Hs : status (session (exec (run Samples.result_then_no_file) initial))
                 = success).
    { apply H. vm_compute. discriminate. }
    vm_compute in Hs. discriminate Hs.
Qed.

Lemma handleSubmit_begin_without_file (w : World) :
  selectedFile (session w) = None ->
  handleSubmit_begin w
  = (Finished,
     exec (setErrorMessage (JStr "Please choose an image before checking.")) w).
Proof.
  intros Hnone. unfold handleSubmit_begin, bind, read. rewrite Hnone.
  reflexivity.
Qed.

(** C4, as stated, fails: [handleSubmit] on the freshly mounted component,
    where no file is selected, sets the message "Please choose an image
    before checking." and leaves the status as it was ([idle]); it does not
    set it to [error]. *)
Lemma C4_status_is_not_set :
  selectedFile (session initial) = None /\
  errorMessage (session (exec handleSubmit_begin initial))
  = JStr "Please choose an image before checking." /\
  status (session (exec handleSubmit_begin initial)) = idle /\
  ~ Laws.missing_file_is_an_error.
Proof.
  split; [reflexivity | split; [reflexivity | split; [reflexivity |]]].
  intros H. specialize (H initial eq_refl). discriminate H.
Qed.

(** C4, amended: when no file is selected, [handleSubmit] sets the message
    "Please choose an image before checking." and does nothing else: the
    status, the handles, the controllers and the object URLs stay as they
    were, nothing is uploaded and no polling starts, whatever the network
    would answer.  In such a state the submit button is disabled. *)
Theorem C4_submit_without_file :
  forall w : World,
    selectedFile (session w) = None ->
    let w' := exec handleSubmit_begin w in
    fst (handleSubmit_begin w) = Finished /\
    session w'
    = mkSession None (previewUrl (session w)) (resultUrl (session w))
        (status (session w)) (JStr "Please choose an image before checking.") /\
    trace w'
    = trace w ++ [SetErrorMessage (JStr "Please choose an image before checking.")] /\
    (pollControllerRef w', aborted w', nextController w', objectUrls w', nextUrl w')
    = (pollControllerRef w, aborted w, nextController w, objectUrls w, nextUrl w) /\
    (forall upload env, exec (handleSubmit upload env) w = w') /\
    View.submit_disabled (session w) = true.
Proof.
  intros w Hnone w'.
  pose proof (handleSubmit_begin_without_file w Hnone) as Hbegin.
  assert (Hw' : w' = exec (setErrorMessage
                             (JStr "Please choose an image before checking.")) w).
  { subst w'. unfold exec at 1. rewrite Hbegin. reflexivity. }
  rewrite Hbegin, Hw'.
  split; [reflexivity |].
  split; [cbn; rewrite Hnone; reflexivity |].
  split; [reflexivity |].
  split; [reflexivity |].
  split; [| unfold View.submit_disabled; rewrite Hnone; reflexivity].
  intros upload env. unfold exec, handleSubmit, bind. rewrite Hbegin. reflexivity.
Qed.

Lemma C4_submit_without_file_witness :
  session (exec handleSubmit_begin initial)
  = mkSession None None None idle (JStr "Please choose an image before checking.") /\
  exec (handleSubmit Samples.accepted Samples.never_done) initial
  = exec handleSubmit_begin initial.
Proof.
  destruct (C4_submit_without_file initial eq_refl) as (_ & Hs & _ & _ & Hnet & _).
  split; [exact Hs | exact (Hnet Samples.accepted Samples.never_done)].
Defined.

Lemma revoked_gone (u : Url) (b : Blob) (l : list (Url * Blob)) :
  ~ In (u, b) (filter (fun entry => negb (Nat.eqb (fst entry) u)) l).
Proof.
  intros H. apply filter_In in H. destruct H as [_ H].
  cbn [fst] in H. rewrite Nat.eqb_refl in H. discriminate H.
Qed.

Lemma filtered_gone (u : Url) (b : Blob) (f : Url * Blob -> bool)
    (l : list (Url * Blob)) :
  ~ In (u, b) l -> ~ In (u, b) (filter f l).
Proof.
  intros H Hin. apply filter_In in Hin. exact (H (proj1 Hin)).
Qed.

(** What [handleReset] and the render after it leave behind. *)
Lemma reset_effect (w : World) :
  wp (dispatch Reset)
     (fun _ w' =>
        session w' = mkSession None None None idle JNull /\
        pollControllerRef w' = pollControllerRef w /\
        nextController w' = nextController w /\
        nextUrl w' = nextUrl w /\
        aborted w'
        = match pollControllerRef w with
          | Some c => if is_aborted c w then aborted w else c :: aborted w
          | None => aborted w
          end /\
        (previewUrl (session w) = None -> resultUrl (session w) = None ->
         objectUrls w' = objectUrls w) /\
        match previewUrl (session w) with
        | Some u => forall b, ~ In (u, b) (objectUrls w')
        | None => True
        end /\
        match resultUrl (session w) with
        | Some u => forall b, ~ In (u, b) (objectUrls w')
        | None => True
        end) w.
Proof.
  destruct w as [[sf p r st em] ref ab nc urls n lg].
  destruct p as [p0 |], r as [r0 |];
    wp_go; repeat split; try reflexivity; try (intros; congruence);
    intros b;
    repeat first [ apply revoked_gone | apply filtered_gone ].
Qed.

(** C9: resetting twice in a row leaves exactly what resetting once
    leaves.  After one reset the session is idle with no message, no file
    and no handle; the URLs the session held are revoked; the controller
    the page pointed to when the reset began is still the one it points
    to, and it is aborted; a second reset changes neither the session, nor
    the controllers, nor the object URLs. *)
Theorem C9_reset_idempotent :
  forall w : World,
    let once := exec (dispatch Reset) w in
    let twice := exec (dispatch Reset) once in
    state_of twice = state_of once /\
    session once = mkSession None None None idle JNull /\
    pollControllerRef once = pollControllerRef w /\
    match pollControllerRef w with
    | Some c => is_aborted c once = true
    | None => aborted once = aborted w
    end /\
    match previewUrl (session w) with
    | Some u => forall b, ~ In (u, b) (objectUrls once)
    | None => True
    end /\
    match resultUrl (session w) with
    | Some u => forall b, ~ In (u, b) (objectUrls once)
    | None => True
    end.
Proof.
  intros w once twice.
  destruct (reset_effect w) as (Hs & Href & Hnc & Hnu & Hab & _ & Hp & Hr).
  fold (exec (dispatch Reset) w) in Hs, Href, Hnc, Hnu, Hab, Hp, Hr.
  fold once in Hs, Href, Hnc, Hnu, Hab, Hp, Hr.
  destruct (reset_effect once) as (Hs2 & Href2 & Hnc2 & Hnu2 & Hab2 & Hurls2 & _).
  fold (exec (dispatch Reset) once) in Hs2, Href2, Hnc2, Hnu2, Hab2, Hurls2.
  fold twice in Hs2, Href2, Hnc2, Hnu2, Hab2, Hurls2.
  assert (Haborted : match pollControllerRef w with
                     | Some c => is_aborted c once = true
                     | None => aborted once = aborted w
                     end).
  { unfold is_aborted. rewrite Hab.
    destruct (pollControllerRef w) as [c |]; [| reflexivity].
    apply existsb_abort. }
  split; [| split; [exact Hs | split; [exact Href | split; [exact Haborted |
            split; [exact Hp | exact Hr]]]]].
  unfold state_of.
  rewrite Hs2, Href2, Hnc2, Hnu2, Hab2, Hurls2, Hs
    by (rewrite Hs; reflexivity).
  rewrite Href. rewrite Href in Hab2.
  destruct (pollControllerRef w) as [c |]; [| reflexivity].
  rewrite Haborted. reflexivity.
Qed.

(** *** Object URLs *)

Lemma mem_without (u v : Url) (l : list Url) :
  mem v (without u l) = mem v l && negb (Nat.eqb v u).
Proof.
  unfold mem, without. induction l as [| x l IH]; [reflexivity |].
  simpl. destruct (Nat.eqb_spec x u) as [-> | Hxu]; simpl.
  - rewrite IH. destruct (Nat.eqb_spec v u) as [-> | Hvu]; simpl.
    + rewrite !andb_false_r. reflexivity.
    + rewrite andb_true_r. reflexivity.
  - rewrite IH. destruct (Nat.eqb_spec v x) as [-> | Hvx]; simpl.
    + destruct (Nat.eqb_spec x u); [contradiction | reflexivity].
    + reflexivity.
Qed.

Lemma without_slot (u : Url) (slot : option Url) :
  without u (slot_list slot) = if holds slot u then [] else slot_list slot.
Proof.
  destruct slot as [v |]; [| reflexivity].
  unfold without. simpl. destruct (Nat.eqb v u); reflexivity.
Qed.

Lemma slot_list_length (slot : option Url) : (List.length (slot_list slot) <= 1)%nat.
Proof. destruct slot; simpl; lia. Qed.

Lemma holds_true (slot : option Url) (u : Url) :
  holds slot u = true <-> slot = Some u.
Proof.
  destruct slot as [v |]; simpl.
  - rewrite Nat.eqb_eq. split; [intros -> | intros [= ->]]; reflexivity.
  - split; discriminate.
Qed.

Lemma holds_fresh (slot : option Url) (n : Url) :
  (forall u, slot = Some u -> (u < n)%nat) -> holds slot n = false.
Proof.
  intros H. destruct (holds slot n) eqn:E; [| reflexivity].
  apply holds_true in E. apply H in E. lia.
Qed.

Lemma replay_event_sound (l : list Event) (h h' : Handles) (e : Event) :
  Sound l h -> replay_event e h = Some h' -> Sound (e :: l) h'.
Proof.
  intros [Hp Hr Hpts Hcr Hbp Hbr Hd Ho Hc] He.
  assert (Hlp := slot_list_length (held_preview h)).
  assert (Hlr := slot_list_length (held_result h)).
  destruct h as [p r n o]. cbn [held_preview held_result fresh once] in *.
  assert (Hpn := holds_fresh p n Hbp).
  assert (Hrn := holds_fresh r n Hbr).
  assert (Hon : mem n o = false).
  { destruct (mem n o) eqn:E; [| reflexivity]. apply Ho in E. lia. }
  destruct e; cbn [replay_event held_preview held_result fresh once] in He;
    try (injection He as <-; constructor;
         cbn [held_preview held_result fresh once outstanding revocations
              at_most_one_each];
         [ exact Hp | exact Hr | rewrite Hp, Hr; auto
         | intros k0 u0 [E | Hin]; [discriminate | eauto]
         | exact Hbp | exact Hbr | exact Hd | exact Ho | exact Hc ]).
  - (* Created *)
    destruct k.
    + destruct p as [pv |]; [discriminate |].
      revert He. destruct (Nat.eqb_spec u n) as [-> | _]; [| discriminate].
      intros He. injection He as <-. constructor;
        cbn [held_preview held_result fresh once outstanding revocations
             at_most_one_each kind_eqb slot_list].
      * rewrite Hp. reflexivity.
      * exact Hr.
      * rewrite Hp, Hr. cbn [List.length slot_list]. auto.
      * intros k0 u0 [E | Hin]; [injection E as _ <-; lia |].
        apply Hcr in Hin. lia.
      * intros u0 [= <-]. lia.
      * intros u0 E. apply Hbr in E. lia.
      * intros u0 E. apply (holds_true (Some n)) in E. injection E as <-.
        exact Hrn.
      * intros u0 E. destruct (Ho u0 E) as (Hlt & _ & Hr0).
        repeat split; [lia | | exact Hr0].
        cbn [holds]. apply Nat.eqb_neq. lia.
      * intros u0. rewrite (Hc u0). cbn [holds orb].
        destruct (Nat.eqb_spec n u0) as [<- | Hne].
        -- rewrite Hrn, Hon, Nat.ltb_irrefl. reflexivity.
        -- cbn [orb]. destruct (holds r u0); [reflexivity |].
           destruct (mem u0 o); [reflexivity |].
           destruct (Nat.ltb_spec u0 n), (Nat.ltb_spec u0 (S n)); try reflexivity; lia.
    + destruct r as [rv |]; [discriminate |].
      revert He. destruct (Nat.eqb_spec u n) as [-> | _]; [| discriminate].
      intros He. injection He as <-. constructor;
        cbn [held_preview held_result fresh once outstanding revocations
             at_most_one_each kind_eqb slot_list].
      * exact Hp.
      * rewrite Hr. reflexivity.
      * rewrite Hp, Hr. cbn [List.length slot_list]. auto.
      * intros k0 u0 [E | Hin]; [injection E as _ <-; lia |].
        apply Hcr in Hin. lia.
      * intros u0 E. apply Hbp in E. lia.
      * intros u0 [= <-]. lia.
      * intros u0 E. apply holds_true in E. apply Hbp in E.
        cbn [holds]. apply Nat.eqb_neq. lia.
      * intros u0 E. destruct (Ho u0 E) as (Hlt & Hp0 & _).
        repeat split; [lia | exact Hp0 |].
        cbn [holds]. apply Nat.eqb_neq. lia.
      * intros u0. rewrite (Hc u0). cbn [holds orb].
        destruct (Nat.eqb_spec n u0) as [<- | Hne].
        -- rewrite Hpn, Hon, Nat.ltb_irrefl. reflexivity.
        -- rewrite orb_false_r. destruct (holds p u0); [reflexivity |].
           destruct (mem u0 o); [reflexivity |].
           destruct (Nat.ltb_spec u0 n), (Nat.ltb_spec u0 (S n)); try reflexivity; lia.
  - (* Revoked *)
    revert He.
    destruct (holds p u) eqn:Hpu; [| destruct (holds r u) eqn:Hru;
                                      [| destruct (mem u o) eqn:Huo; [| discriminate]]];
      intros He; injection He as <-; constructor;
      cbn [held_preview held_result fresh once outstanding revocations
           at_most_one_each slot_list];
      rewrite ?Hp, ?Hr, ?without_slot, ?Hpu, ?Hru, ?(Hd u Hpu).
    all: try reflexivity.
    all: try exact Hbp; try exact Hbr; try exact Hd.
    all: try (intros k0 u0 [E | Hin]; [discriminate | eauto]).
    all: try (cbn [List.length]; repeat split; auto; lia).
    all: try (intros u0; discriminate).
    + (* once, preview revoked *)
      intros u0 E. cbn [mem existsb] in E. cbn [holds].
      destruct (Nat.eqb_spec u0 u) as [Heq | Hne].
      * subst u0. repeat split.
        -- apply Hbp. apply holds_true. exact Hpu.
        -- exact (Hd u Hpu).
      * cbn [orb] in E. destruct (Ho u0 E) as (? & ? & ?).
        repeat split; assumption.
    + intros u0. rewrite (Hc u0). cbn [holds orb mem existsb].
      destruct (Nat.eqb_spec u u0) as [Heq | Hne].
      * subst u0. rewrite Hpu, (Hd u Hpu), Nat.eqb_refl. reflexivity.
      * destruct (Nat.eqb_spec u0 u) as [Heq | _]; [congruence |].
        apply holds_true in Hpu. subst p. cbn [holds orb].
        destruct (Nat.eqb_spec u u0) as [Heq | _]; [congruence |].
        reflexivity.
    + intros u0 E. cbn [mem existsb] in E. cbn [holds].
      destruct (Nat.eqb_spec u0 u) as [Heq | Hne].
      * subst u0. repeat split.
        -- apply Hbr. apply holds_true. exact Hru.
        -- exact Hpu.
      * cbn [orb] in E. destruct (Ho u0 E) as (? & ? & ?).
        repeat split; assumption.
    + intros u0. rewrite (Hc u0). cbn [holds orb mem existsb].
      destruct (Nat.eqb_spec u u0) as [Heq | Hne].
      * subst u0. rewrite Hpu, Hru, Nat.eqb_refl. reflexivity.
      * destruct (Nat.eqb_spec u0 u) as [Heq | _]; [congruence |].
        apply holds_true in Hru. subst r. cbn [holds orb].
        destruct (Nat.eqb_spec u u0) as [Heq | _]; [congruence |].
        rewrite orb_false_r. reflexivity.
    + intros u0 E. rewrite mem_without in E. apply andb_true_iff in E.
      destruct E as [E _]. exact (Ho u0 E).
    + intros u0. rewrite (Hc u0), mem_without.
      destruct (Nat.eqb_spec u u0) as [Heq | Hne].
      * subst u0. rewrite Hpu, Hru, Huo, Nat.eqb_refl. cbn [orb andb negb].
        destruct (Ho u Huo) as (Hlt & _).
        destruct (Nat.ltb_spec u n); [reflexivity | lia].
      * destruct (Nat.eqb_spec u0 u) as [Heq | _]; [congruence |].
        cbn [negb]. rewrite andb_true_r. reflexivity.
Qed.

Lemma replay_sound (l : list Event) :
  forall h, replay l = Some h -> Sound l h.
Proof.
  induction l as [| e older IH]; intros h Hreplay.
  - injection Hreplay as <-.
    constructor; cbn; try reflexivity; try discriminate; auto; try contradiction.
  - cbn [replay] in Hreplay.
    destruct (replay older) as [h0 |] eqn:E; [| discriminate].
    exact (replay_event_sound older h0 h e (IH h0 eq_refl) Hreplay).
Qed.

Ltac eqb_false :=
  repeat match goal with
         | H : Nat.eqb _ _ = false |- _ => progress (rewrite H)
         end.

Ltac replay_tac Hreplay :=
  unfold tracked; cbn [session log nextUrl previewUrl resultUrl];
  cbn [replay]; rewrite Hreplay;
  repeat (progress
            (cbn [replay_event held_preview held_result fresh once holds mem
                  existsb without filter negb orb];
             rewrite ?Nat.eqb_refl; eqb_false));
  reflexivity.

(** Every action, with the render that follows it, keeps the discipline. *)
Lemma dispatch_tracked (act : Action) (w : World) :
  tracked w -> wp (dispatch act) (fun _ w' => tracked w') w.
Proof.
  intros Hreplay. unfold tracked in Hreplay.
  pose proof (replay_sound _ _ Hreplay) as [_ _ _ _ Hbp Hbr Hd _ _].
  destruct w as [[sf p r st em] ref ab nc urls n lg].
  cbn [session log nextUrl previewUrl resultUrl held_preview held_result fresh once] in *.
  destruct p as [p0 |], r as [r0 |].
  - assert (Hp0 := Hbp p0 eq_refl). assert (Hr0 := Hbr r0 eq_refl).
    assert (Hrp : Nat.eqb r0 p0 = false) by (exact (Hd p0 (Nat.eqb_refl p0))).
    assert (Hpr : Nat.eqb p0 r0 = false) by (rewrite Nat.eqb_sym; exact Hrp).
    assert (Hpn : Nat.eqb p0 n = false) by (apply Nat.eqb_neq; lia).
    assert (Hnp : Nat.eqb n p0 = false) by (apply Nat.eqb_neq; lia).
    assert (Hrn : Nat.eqb r0 n = false) by (apply Nat.eqb_neq; lia).
    assert (Hnr : Nat.eqb n r0 = false) by (apply Nat.eqb_neq; lia).
    clear Hbp Hbr Hd Hp0 Hr0.
    destruct act as [[f |] | | upload | c taskId attempt [rep af ab' asl] | c |];
      wp_go; replay_tac Hreplay.
  - assert (Hp0 := Hbp p0 eq_refl).
    assert (Hpn : Nat.eqb p0 n = false) by (apply Nat.eqb_neq; lia).
    assert (Hnp : Nat.eqb n p0 = false) by (apply Nat.eqb_neq; lia).
    clear Hbp Hbr Hd Hp0.
    destruct act as [[f |] | | upload | c taskId attempt [rep af ab' asl] | c |];
      wp_go; replay_tac Hreplay.
  - assert (Hr0 := Hbr r0 eq_refl).
    assert (Hrn : Nat.eqb r0 n = false) by (apply Nat.eqb_neq; lia).
    assert (Hnr : Nat.eqb n r0 = false) by (apply Nat.eqb_neq; lia).
    clear Hbp Hbr Hd Hr0.
    destruct act as [[f |] | | upload | c taskId attempt [rep af ab' asl] | c |];
      wp_go; replay_tac Hreplay.
  - clear Hbp Hbr Hd.
    destruct act as [[f |] | | upload | c taskId attempt [rep af ab' asl] | c |];
      wp_go; replay_tac Hreplay.
Qed.

Lemma run_tracked (acts : list Action) :
  forall w, tracked w -> tracked (exec (run acts) w).
Proof.
  induction acts as [| act rest IH]; intros w Hw.
  - exact Hw.
  - unfold exec. cbn [run]. unfold bind.
    pose proof (dispatch_tracked act w Hw) as Hstep. unfold wp in Hstep.
    destruct (dispatch act w) as [[] w1]. cbn [fst snd] in Hstep.
    exact (IH w1 Hstep).
Qed.

(** Unmounting revokes what is still held, once. *)
Lemma unmount_released (w : World) :
  tracked w ->
  replay (log (exec unmount w))
  = Some (mkHandles None None (nextUrl w)
            (slot_list (resultUrl (session w))
             ++ slot_list (previewUrl (session w)))).
Proof.
  intros Hreplay. unfold tracked in Hreplay.
  pose proof (replay_sound _ _ Hreplay) as [_ _ _ _ _ _ Hd _ _].
  destruct w as [[sf p r st em] ref ab nc urls n lg].
  cbn [session log nextUrl previewUrl resultUrl held_preview held_result fresh once] in *.
  change (wp unmount
            (fun _ w' =>
               replay (log w')
               = Some (mkHandles None None n (slot_list r ++ slot_list p)))
            (mkWorld (mkSession sf p r st em) ref ab nc urls n lg)).
  destruct p as [p0 |], r as [r0 |];
    try (assert (Hrp : Nat.eqb r0 p0 = false) by (exact (Hd p0 (Nat.eqb_refl p0)));
         assert (Hpr : Nat.eqb p0 r0 = false) by (rewrite Nat.eqb_sym; exact Hrp));
    wp_go;
    (cbn [replay log]; rewrite Hreplay;
     repeat (progress
               (cbn [replay_event held_preview held_result fresh once holds mem
                     existsb without filter negb orb];
                rewrite ?Nat.eqb_refl; eqb_false));
     reflexivity).
Qed.

Lemma mem_slots (p r : option Url) (u : Url) :
  mem u (slot_list r ++ slot_list p) = holds p u || holds r u.
Proof.
  destruct p as [p0 |], r as [r0 |]; cbn [slot_list app mem existsb holds];
    rewrite ?orb_false_r, ?(Nat.eqb_sym u); try reflexivity.
  apply orb_comm.
Qed.

(** C8, as stated, fails: when a second file is chosen, the preview handle
    of the first is revoked by [handleFileChange] and then once more by the
    cleanup of the effect on [previewUrl]; by the time the component is gone
    it has been revoked twice, not exactly once. *)
Lemma C8_replaced_handle_revoked_twice : ~ revoked_exactly_once.
Proof.
  intros H.
  specialize (H Samples.two_selections 0%nat).
  assert (Hcreated : created 0%nat
                       (log (exec (whole_life Samples.two_selections) initial))).
  { exists Preview. vm_compute. repeat (first [left; reflexivity | right]). }
  apply H in Hcreated. vm_compute in Hcreated. discriminate Hcreated.
Qed.

(** C8, amended: over any sequence of actions on the mounted component
    (choosing a file or none, submitting, the upload's answer, iterations of
    the poll loop with any answers, its time-out, resets) followed by the
    unmounting, every object URL that was created is revoked, never leaked:
    exactly once if it is still held when the component is unmounted, and
    exactly twice if it was replaced or cleared before (by the handler, and
    once more by the cleanup of the effect that watches it).  At every point
    of the history at most one preview URL and at most one result URL is
    outstanding, and at the end none is. *)
Theorem C8_handles :
  forall acts : list Action,
    let last := session (exec (run acts) initial) in
    let l := log (exec (whole_life acts) initial) in
    (forall u,
       created u l ->
       revocations u l
       = if holds (previewUrl last) u || holds (resultUrl last) u
         then 1%nat else 2%nat) /\
    at_most_one_each l /\
    outstanding Preview l = [] /\
    outstanding Result l = [].
Proof.
  intros acts last l.
  assert (Hinit : tracked initial) by reflexivity.
  pose proof (run_tracked acts initial Hinit) as Hrun.
  pose proof (unmount_released _ Hrun) as Hreplay.
  assert (Hl : l = log (exec unmount (exec (run acts) initial))).
  { subst l. unfold whole_life, exec, bind.
    destruct (run acts initial) as [[] w1]. reflexivity. }
  rewrite <- Hl in Hreplay. fold last in Hreplay.
  destruct (replay_sound _ _ Hreplay) as [Hp Hr Hpts Hcr _ _ _ _ Hc].
  cbn [held_preview held_result fresh once slot_list] in *.
  split; [| split; [| split]]; try assumption.
  intros u (k & Hin). apply Hcr in Hin.
  rewrite (Hc u), mem_slots. cbn [holds orb].
  destruct (holds (previewUrl last) u || holds (resultUrl last) u);
    [reflexivity |].
  destruct (Nat.ltb_spec u (nextUrl (exec (run acts) initial))); [reflexivity | lia].
Qed.

Lemma C8_handles_witness :
  revocations 0%nat (log (exec (whole_life Samples.two_selections) initial))
  = 2%nat /\
  revocations 1%nat (log (exec (whole_life Samples.two_selections) initial))
  = 1%nat.
Proof.
  split.
  - apply (proj1 (C8_handles Samples.two_selections) 0%nat).
    exists Preview. vm_compute. repeat (first [left; reflexivity | right]).
  - apply (proj1 (C8_handles Samples.two_selections) 1%nat).
    exists Preview. vm_compute. repeat (first [left; reflexivity | right]).
Defined.

(** * Further properties of the code *)

(** ** The result route *)

(** X1. The result route answers every request: whatever the configuration,
    the task id and the behaviour of the backend (failure statuses, bodies
    that cannot be read, statuses a response cannot be built with), the
    handler returns a response and its status lies between 200 and 599. *)
Theorem GET_always_answers :
  forall (cfg : option string) (fetch : string -> FetchOutcome)
         (encode : string -> string) (taskId : string),
    exists r,
      ResultRoute.GET cfg fetch encode taskId = Some r /\
      200 <= Http.status r <= 599.
Proof.
  intros cfg fetch encode taskId.
  destruct (GET_shape cfg fetch encode taskId) as (r & HGET & Hstatus & _).
  exists r. split; assumption.
Qed.

(** X2. With a backend configured and a task id given, the result route
    answers 202 exactly when the backend answered 202; and a poll iteration
    that receives such an answer, with nobody cancelling, tests the token,
    sleeps, tests the token again and continues without touching the
    session. *)
Theorem GET_pending_iff :
  forall (base taskId : string) (fetch : string -> FetchOutcome)
         (encode : string -> string) (r' : Response),
    base <> ""%string -> taskId <> ""%string ->
    ResultRoute.GET (Some base) fetch encode taskId = Some r' ->
    (Http.status r' = 202 <->
     exists r,
       fetch (base ++ "/get_result/" ++ encode taskId)%string = Resolves r /\
       Http.status r = 202) /\
    (Http.status r' = 202 ->
     forall c tid attempt w,
       is_aborted c w = false ->
       for_body c tid attempt (mkAttempt (Resolves r') false false false) w
       = (Continue, record (pending_round c tid attempt) w)).
Proof.
  intros base taskId fetch encode r' Hbase Htask HGET.
  split; [| intros H c tid attempt w Hlive;
            exact (for_body_pending c tid attempt r' w H Hlive)].
  rewrite (configured_base base taskId fetch encode Hbase Htask) in HGET.
  unfold ResultRoute.relay in HGET.
  destruct (fetch (base ++ "/get_result/" ++ encode taskId)%string)
    as [response |].
  - destruct (Z.eqb_spec (Http.status response) 202) as [E202 | N202].
    + cbn in HGET. injection HGET as <-. cbn.
      split; [intros _; exists response; split; [reflexivity | exact E202] | reflexivity].
    + assert (Hno : ~ exists r, Resolves response = Resolves r /\ Http.status r = 202).
      { intros (r & [= <-] & H). contradiction. }
      assert (Hgoal : Http.status r' <> 202).
      { destruct (negb (ok response)).
        - destruct (NextResponse_json _ (Http.status response)) as [resp |] eqn:E.
          + apply NextResponse_json_some in E. destruct E as [-> _].
            injection HGET as <-. exact N202.
          + cbn in HGET. injection HGET as <-. cbn. lia.
        - destruct (includes _ _).
          + destruct (json response); cbn in HGET; injection HGET as <-; cbn; lia.
          + destruct (arrayBuffer response);
              [destruct (header_value_ok _) |];
              cbn in HGET; injection HGET as <-; cbn; lia. }
      split; [intros H; contradiction | intros H; contradiction].
  - cbn in HGET. injection HGET as <-. cbn.
    split; [lia | intros (r & H & _); discriminate].
Qed.

Lemma GET_pending_iff_witness :
  ResultRoute.GET Samples.backend (Samples.backend_says Samples.processing_reply)
    (fun t => t) "task-1"
  = Some Samples.processing_reply /\
  for_body 0%nat (JStr "task-1") 3%nat
    (mkAttempt (Resolves Samples.processing_reply) false false false) initial
  = (Continue, record (pending_round 0%nat (JStr "task-1") 3%nat) initial).
Proof.
  split; [reflexivity |].
  apply (proj2 (GET_pending_iff "http://localhost:5000" "task-1"
                  (Samples.backend_says Samples.processing_reply) (fun t => t)
                  Samples.processing_reply
                  ltac:(discriminate) ltac:(discriminate) eq_refl));
    reflexivity.
Defined.

(** ** How one query ends the loop *)

Lemma for_loop_returns (c : Controller) (taskId : Json) (env : nat -> Attempt)
    (attempt : nat) (rest : list nat) (w w' : World) :
  for_body c taskId attempt (env attempt) w = (Return, w') ->
  for_loop c taskId env (attempt :: rest) w = (Return, w').
Proof. intros H. cbn [for_loop]. unfold bind. rewrite H. reflexivity. Qed.

Lemma not_ok_not_pending (r : Response) :
  ok r = false -> (Http.status r =? 202) = false.
Proof.
  intros Hok. destruct (Z.eqb_spec (Http.status r) 202) as [E | _]; [| reflexivity].
  unfold ok in Hok. rewrite E in Hok. discriminate Hok.
Qed.

Lemma for_body_failure_status (c : Controller) (taskId : Json) (attempt : nat)
    (r : Response) (w : World) :
  ok r = false ->
  is_aborted c w = false ->
  for_body c taskId attempt (mkAttempt (Resolves r) false false false) w
  = (Return,
     exec (fail_with (or_else (get "error" (json_or_null r)) "Processing failed."))
       (record [Checked LoopHead c false; Query c taskId attempt] w)).
Proof.
  intros Hok Hlive.
  assert (Hs := not_ok_not_pending r Hok).
  assert (Hnok : negb (ok r) = true) by (rewrite Hok; reflexivity).
  unfold json_or_null. apply run_pair. wp_go; rewrite ?Hlive; reflexivity.
Qed.

Lemma for_body_rejected (c : Controller) (taskId : Json) (attempt : nat)
    (w : World) :
  is_aborted c w = false ->
  for_body c taskId attempt (mkAttempt Rejects false false false) w
  = (Return,
     exec (fail_with (JStr "Lost connection to the processor."))
       (record [Checked LoopHead c false; Query c taskId attempt;
                Checked InCatch c false; ConsoleError "Polling failed:"] w)).
Proof.
  intros Hlive. apply run_pair. wp_go. reflexivity.
Qed.

(** X3. When the status query itself is rejected and nobody cancelled, the
    poll loop stops at once: it logs the failure, sets the message to the
    lost-connection text and the status to error, and leaves the file, both
    handles and the object URLs as they were. *)
Theorem poll_transport_failure :
  forall (c : Controller) (taskId : Json) (env : nat -> Attempt)
         (attempt : nat) (rest : list nat) (w : World),
    env attempt = mkAttempt Rejects false false false ->
    is_aborted c w = false ->
    let out := for_loop c taskId env (attempt :: rest) w in
    fst out = Return /\
    session (snd out)
    = mkSession (selectedFile (session w)) (previewUrl (session w))
        (resultUrl (session w)) error
        (JStr "Lost connection to the processor.") /\
    objectUrls (snd out) = objectUrls w /\
    trace (snd out)
    = trace w
      ++ [Checked LoopHead c false; Query c taskId attempt;
          Checked InCatch c false; ConsoleError "Polling failed:";
          SetErrorMessage (JStr "Lost connection to the processor.");
          SetStatus error].
Proof.
  intros c taskId env attempt rest w Henv Hlive out. subst out.
  rewrite (for_loop_returns c taskId env attempt rest w _
             (eq_trans (f_equal (fun a => for_body c taskId attempt a w) Henv)
                (for_body_rejected c taskId attempt w Hlive))).
  cbn [fst snd]. repeat split.
  rewrite trace_fail_with, trace_record, <- app_assoc. reflexivity.
Qed.

Lemma poll_transport_failure_witness :
  let out := for_loop 0%nat (JStr "task-1")
               (fun _ => mkAttempt Rejects false false false)
               (seq 0 MAX_POLLS) (exec poll_start initial) in
  fst out = Return /\
  errorMessage (session (snd out)) = JStr "Lost connection to the processor." /\
  Laws.count is_query (log (snd out)) = 1%nat.
Proof.
  pose proof (poll_transport_failure 0%nat (JStr "task-1")
                (fun _ => mkAttempt Rejects false false false)
                0%nat (seq 1 44) (exec poll_start initial) eq_refl eq_refl) as H.
  cbv zeta in H. destruct H as (H1 & H2 & _ & _).
  split; [exact H1 | split].
  - change (seq 0 MAX_POLLS) with (0%nat :: seq 1 44). rewrite H2. reflexivity.
  - vm_compute. reflexivity.
Defined.

(** X4. When the status query is answered with a failure status and nobody
    cancels, the poll loop stops at once with status error and a truthy
    message: the error field of the body when it is truthy, the generic text
    otherwise; file, handles and object URLs are left as they were and no
    further query is made. *)
Theorem poll_failure_status :
  forall (c : Controller) (taskId : Json) (env : nat -> Attempt)
         (attempt : nat) (rest : list nat) (r : Response) (w : World),
    env attempt = mkAttempt (Resolves r) false false false ->
    ok r = false ->
    is_aborted c w = false ->
    let message := or_else (get "error" (json_or_null r)) "Processing failed." in
    let out := for_loop c taskId env (attempt :: rest) w in
    fst out = Return /\
    session (snd out)
    = mkSession (selectedFile (session w)) (previewUrl (session w))
        (resultUrl (session w)) error message /\
    truthy message = true /\
    objectUrls (snd out) = objectUrls w /\
    trace (snd out)
    = trace w
      ++ [Checked LoopHead c false; Query c taskId attempt;
          SetErrorMessage message; SetStatus error].
Proof.
  intros c taskId env attempt rest r w Henv Hok Hlive message out. subst out.
  rewrite (for_loop_returns c taskId env attempt rest w _
             (eq_trans (f_equal (fun a => for_body c taskId attempt a w) Henv)
                (for_body_failure_status c taskId attempt r w Hok Hlive))).
  cbn [fst snd]. repeat split.
  - subst message. unfold or_else.
    destruct (get "error" (json_or_null r)) as [v |]; [| reflexivity].
    destruct (truthy v) eqn:E; [exact E | reflexivity].
  - rewrite trace_fail_with, trace_record, <- app_assoc. reflexivity.
Qed.

Lemma poll_failure_status_witness :
  let r := Samples.json_response 503 (JObj [("error", JStr "model crashed")]) in
  let out := for_loop 0%nat (JStr "task-1") (fun _ => Samples.undisturbed r)
               (seq 0 MAX_POLLS) (exec poll_start initial) in
  fst out = Return /\
  errorMessage (session (snd out)) = JStr "model crashed" /\
  status (session (snd out)) = error.
Proof.
  pose proof (poll_failure_status 0%nat (JStr "task-1")
                (fun _ => Samples.undisturbed
                            (Samples.json_response 503
                               (JObj [("error", JStr "model crashed")])))
                0%nat (seq 1 44)
                (Samples.json_response 503 (JObj [("error", JStr "model crashed")]))
                (exec poll_start initial) eq_refl eq_refl eq_refl) as H.
  cbv zeta in H. destruct H as (H1 & H2 & _).
  cbv zeta. change (seq 0 MAX_POLLS) with (0%nat :: seq 1 44).
  split; [exact H1 |]. rewrite H2. split; reflexivity.
Defined.

(** ** The result route and the poll loop together *)

Lemma for_body_relayed_failure (c : Controller) (taskId : Json) (attempt : nat)
    (st : Z) (m : Json) (w : World) :
  ok (Laws.failure_reply st m) = false ->
  is_aborted c w = false ->
  for_body c taskId attempt
    (mkAttempt (Resolves (Laws.failure_reply st m)) false false false) w
  = (Return,
     exec (fail_with (or_else (Some (serialized m)) "Processing failed."))
       (record [Checked LoopHead c false; Query c taskId attempt] w)).
Proof.
  intros Hok Hlive.
  rewrite (for_body_failure_status c taskId attempt _ w Hok Hlive).
  reflexivity.
Qed.

Lemma carried_failure_status (st : Z) :
  300 <= st <= 599 -> st <> 304 ->
  (200 <=? st) && (st <=? 299) = false /\ constructor_accepts st = true.
Proof.
  intros Hrange H304. split.
  - apply andb_false_iff. right. apply Z.leb_gt. lia.
  - unfold constructor_accepts, null_body_status.
    destruct (Z.leb_spec 200 st); [| lia].
    destruct (Z.leb_spec st 599); [| lia].
    repeat match goal with
           | |- context [?a =? ?b] => destruct (Z.eqb_spec a b); [lia |]
           end.
    reflexivity.
Qed.

(** X5. With a backend configured and a task id given: when the backend
    answers the status query with a failure status from 300 to 599 other
    than 304, the result route answers with the same status; and when
    nobody cancels, the poll iteration that receives the
    route's answer ends the loop with status error and, as message, the
    error value of the backend's body as JSON writes it when that is
    truthy, and "Processing failed." otherwise (also when the backend's
    body cannot be read).  The result handle is left alone. *)
Theorem backend_failure_reaches_page :
  forall (base taskId : string) (fetch : string -> FetchOutcome)
         (encode : string -> string) (r : Response)
         (c : Controller) (tid : Json) (attempt : nat) (w : World),
    base <> ""%string -> taskId <> ""%string ->
    fetch (base ++ "/get_result/" ++ encode taskId)%string = Resolves r ->
    300 <= Http.status r <= 599 -> Http.status r <> 304 ->
    is_aborted c w = false ->
    let message :=
      or_else (get "error" (serialized (json_or_null r))) "Processing failed." in
    exists r',
      ResultRoute.GET (Some base) fetch encode taskId = Some r' /\
      Http.status r' = Http.status r /\
      let out := for_body c tid attempt
                   (mkAttempt (Resolves r') false false false) w in
      fst out = Return /\
      status (session (snd out)) = error /\
      errorMessage (session (snd out)) = message /\
      resultUrl (session (snd out)) = resultUrl (session w).
Proof.
  intros base taskId fetch encode r c tid attempt w Hbase Htask Hfetch Hrange
    H304 Hlive message.
  destruct (carried_failure_status _ Hrange H304) as [Hok Hst].
  change (ok r = false) in Hok.
  exists (Laws.failure_reply (Http.status r)
            (or_else (get "error" (json_or_null r)) "Processing failed.")).
  split; [| split; [reflexivity |]].
  - rewrite (configured_base base taskId fetch encode Hbase Htask).
    unfold ResultRoute.relay. rewrite Hfetch, (not_ok_not_pending r Hok), Hok.
    cbn [negb]. unfold NextResponse_json. rewrite Hst. reflexivity.
  - cbv zeta.
    rewrite (for_body_relayed_failure c tid attempt (Http.status r) _ w Hok Hlive).
    rewrite or_else_serialized, <- get_serialized.
    repeat split.
Qed.

Lemma backend_failure_reaches_page_witness :
  let r := mkResponse 500 (Some "text/html; charset=utf-8"%string)
             (Delivered (JsonText (JObj [("error", JStr "face detector crashed")]))) in
  exists r',
    ResultRoute.GET Samples.backend (Samples.backend_says r) (fun t => t) "task-1"
    = Some r' /\
    errorMessage
      (session (snd (for_body 0%nat (JStr "task-1") 0%nat
                       (mkAttempt (Resolves r') false false false) initial)))
    = JStr "face detector crashed".
Proof.
  destruct (backend_failure_reaches_page "http://localhost:5000" "task-1"
              (Samples.backend_says
                 (mkResponse 500 (Some "text/html; charset=utf-8"%string)
                    (Delivered (JsonText (JObj [("error", JStr "face detector crashed")])))))
              (fun t => t)
              (mkResponse 500 (Some "text/html; charset=utf-8"%string)
                 (Delivered (JsonText (JObj [("error", JStr "face detector crashed")]))))
              0%nat (JStr "task-1") 0%nat initial
              ltac:(discriminate) ltac:(discriminate) eq_refl
              ltac:(cbn; lia) ltac:(discriminate) eq_refl)
    as (r' & HGET & _ & _ & _ & Hmsg & _).
  exists r'. split; [exact HGET | exact Hmsg].
Defined.

Lemma header_value_ok_app (a b : string) :
  header_value_ok (a ++ b) = header_value_ok a && header_value_ok b.
Proof.
  induction a as [| ch rest IH]; [reflexivity |].
  cbn [append header_value_ok]. rewrite IH. apply andb_assoc.
Qed.

(** The header is refused exactly when the task id is. *)
Lemma content_disposition_ok (taskId : string) :
  header_value_ok (ResultRoute.content_disposition taskId)
  = header_value_ok taskId.
Proof.
  unfold ResultRoute.content_disposition.
  rewrite !header_value_ok_app.
  change (header_value_ok "inline; filename=") with true.
  change (header_value_ok quote) with true.
  change (header_value_ok "result-") with true.
  change (header_value_ok ".png") with true.
  cbn [andb]. rewrite !andb_true_r. reflexivity.
Qed.

(** X6. With a backend configured and a task id given, the result route
    answers 502 with its own message "Unable to contact hijab processor
    backend." in each of these cases: the request to the backend is
    rejected; the backend answers with a success status other than 202
    and a JSON content type, and its body cannot be read as JSON; it
    answers with a success status other than 202 and another content
    type, and its body cannot be read, or the task id cannot stand in a
    header (it has a NUL, CR or LF, or a character above U+00FF); it
    answers with a failure status that a response cannot carry.  When
    nobody cancels, the poll iteration that receives this answer ends the
    loop with status error and that message. *)
Theorem backend_unreachable_reaches_page :
  forall (base taskId : string) (fetch : string -> FetchOutcome)
         (encode : string -> string)
         (c : Controller) (tid : Json) (attempt : nat) (w : World),
    base <> ""%string -> taskId <> ""%string ->
    (fetch (base ++ "/get_result/" ++ encode taskId)%string = Rejects \/
     exists r,
       fetch (base ++ "/get_result/" ++ encode taskId)%string = Resolves r /\
       ((ok r = true /\ Http.status r <> 202 /\
         includes (content_type_or_empty r) "application/json" = true /\
         json r = None) \/
        (ok r = true /\ Http.status r <> 202 /\
         includes (content_type_or_empty r) "application/json" = false /\
         (body r = Broken \/ header_value_ok taskId = false)) \/
        (ok r = false /\ constructor_accepts (Http.status r) = false))) ->
    is_aborted c w = false ->
    let r' := Laws.failure_reply 502
                (JStr "Unable to contact hijab processor backend.") in
    ResultRoute.GET (Some base) fetch encode taskId = Some r' /\
    let out := for_body c tid attempt
                 (mkAttempt (Resolves r') false false false) w in
    fst out = Return /\
    status (session (snd out)) = error /\
    errorMessage (session (snd out))
    = JStr "Unable to contact hijab processor backend.".
Proof.
  intros base taskId fetch encode c tid attempt w Hbase Htask Hcause Hlive r'.
  split.
  - rewrite (configured_base base taskId fetch encode Hbase Htask).
    unfold ResultRoute.relay.
    destruct Hcause
      as [-> | (r & -> & [(Hok & Hst & Hct & Hjson)
                         | [(Hok & Hst & Hct & Hbin) | (Hok & Hst)]])].
    + reflexivity.
    + replace (Http.status r =? 202) with false
        by (symmetry; apply Z.eqb_neq; exact Hst).
      rewrite Hok, Hct, Hjson. reflexivity.
    + replace (Http.status r =? 202) with false
        by (symmetry; apply Z.eqb_neq; exact Hst).
      rewrite Hok, Hct. cbn [negb]. rewrite content_disposition_ok.
      unfold arrayBuffer.
      destruct Hbin as [-> | ->]; [reflexivity |].
      destruct (body r); reflexivity.
    + rewrite (not_ok_not_pending r Hok), Hok. cbn [negb].
      unfold NextResponse_json. rewrite Hst. reflexivity.
  - cbv zeta. subst r'.
    rewrite (for_body_relayed_failure c tid attempt 502
               (JStr "Unable to contact hijab processor backend.") w
               eq_refl Hlive).
    repeat split.
Qed.

Lemma backend_unreachable_reaches_page_witness :
  ResultRoute.GET Samples.backend (fun _ => Rejects) (fun t => t) "task-1"
  = Some (Laws.failure_reply 502
            (JStr "Unable to contact hijab processor backend.")) /\
  ResultRoute.GET Samples.backend (Samples.backend_says Samples.png_reply)
    (fun t => t) (String (ascii_of_nat 10) "task-1")
  = Some (Laws.failure_reply 502
            (JStr "Unable to contact hijab processor backend.")).
Proof.
  split.
  - apply (backend_unreachable_reaches_page "http://localhost:5000" "task-1"
             (fun _ => Rejects) (fun t => t) 0%nat (JStr "task-1") 0%nat initial
             ltac:(discriminate) ltac:(discriminate)
             (or_introl eq_refl) eq_refl).
  - apply (backend_unreachable_reaches_page "http://localhost:5000"
             (String (ascii_of_nat 10) "task-1")
             (Samples.backend_says Samples.png_reply)
             (fun t => t) 0%nat (JStr "task-1") 0%nat initial
             ltac:(discriminate) ltac:(discriminate)).
    + right. eexists. split; [reflexivity |]. right. left.
      repeat split; try reflexivity; try discriminate. right. reflexivity.
    + reflexivity.
Defined.

Lemma includes_defaulted (ct : string) :
  includes ct "application/json" = false ->
  includes (str_or ct "image/png") "application/json" = false.
Proof.
  intros H. unfold str_or. destruct (String.eqb ct ""); [reflexivity | exact H].
Qed.

(** What a reply that is neither pending, nor a failure, nor JSON does to
    the session. *)
Lemma for_body_binary (c : Controller) (taskId : Json) (attempt : nat)
    (r : Response) (p : Payload) (w : World) :
  ok r = true -> Http.status r <> 202 ->
  includes (content_type_or_empty r) "application/json" = false ->
  body r = Delivered p ->
  is_aborted c w = false ->
  wp (for_body c taskId attempt (mkAttempt (Resolves r) false false false))
     (fun res w' =>
        res = Return /\
        if size_zero (mkBlob p (content_type_or_empty r)) then
          session w'
          = mkSession (selectedFile (session w)) (previewUrl (session w))
              (resultUrl (session w)) error (JStr "Received an empty file.") /\
          objectUrls w' = objectUrls w
        else
          session w'
          = mkSession (selectedFile (session w)) (previewUrl (session w))
              (Some (nextUrl w)) success (errorMessage (session w)) /\
          hd_error (objectUrls w')
          = Some (nextUrl w, mkBlob p (content_type_or_empty r))) w.
Proof.
  intros Hok Hstatus Hct Hbody Hlive.
  assert (Hs : (Http.status r =? 202) = false) by (apply Z.eqb_neq; exact Hstatus).
  assert (Hnok : negb (ok r) = false) by (rewrite Hok; reflexivity).
  wp_go;
    repeat match goal with
           | H : size_zero _ = _ |- _ => rewrite H
           end;
    repeat split; reflexivity.
Qed.

(** X7. A finished result goes from the backend to the page unchanged.
    With a backend configured, for a task id that is not empty and can
    stand in a header (no NUL, CR or LF and no character above U+00FF)
    and a reply of the backend with a success status other
    than 202, a content type that does not contain "application/json" and
    a body that can be read, the result route answers 200 with the same
    payload and the content type (image/png when the backend gave none);
    and when nobody cancels, the poll iteration that receives this answer
    makes a fresh object URL for a blob of exactly that payload and type
    the result handle, with status success, or reports "Received an empty
    file." with status error when the payload has no bytes. *)
Theorem result_bytes_reach_page :
  forall (base taskId : string) (fetch : string -> FetchOutcome)
         (encode : string -> string) (r : Response) (p : Payload)
         (c : Controller) (tid : Json) (attempt : nat) (w : World),
    base <> ""%string -> taskId <> ""%string ->
    header_value_ok taskId = true ->
    fetch (base ++ "/get_result/" ++ encode taskId)%string = Resolves r ->
    ok r = true -> Http.status r <> 202 ->
    includes (content_type_or_empty r) "application/json" = false ->
    body r = Delivered p ->
    is_aborted c w = false ->
    let shown_type := str_or (content_type_or_empty r) "image/png" in
    let r' := mkResponse 200 (Some shown_type) (Delivered p) in
    ResultRoute.GET (Some base) fetch encode taskId = Some r' /\
    let out := for_body c tid attempt
                 (mkAttempt (Resolves r') false false false) w in
    fst out = Return /\
    if size_zero (mkBlob p shown_type) then
      status (session (snd out)) = error /\
      errorMessage (session (snd out)) = JStr "Received an empty file." /\
      resultUrl (session (snd out)) = resultUrl (session w)
    else
      status (session (snd out)) = success /\
      resultUrl (session (snd out)) = Some (nextUrl w) /\
      hd_error (objectUrls (snd out)) = Some (nextUrl w, mkBlob p shown_type).
Proof.
  intros base taskId fetch encode r p c tid attempt w Hbase Htask Hsafe Hfetch
    Hok Hstatus Hct Hbody Hlive shown_type r'.
  split.
  - rewrite (configured_base base taskId fetch encode Hbase Htask).
    unfold ResultRoute.relay. rewrite Hfetch.
    replace (Http.status r =? 202) with false
      by (symmetry; apply Z.eqb_neq; exact Hstatus).
    rewrite Hok, Hct. cbn [negb]. unfold arrayBuffer.
    rewrite Hbody, content_disposition_ok, Hsafe. reflexivity.
  - cbv zeta.
    pose proof (for_body_binary c tid attempt r' p w eq_refl
                  ltac:(cbn; discriminate)
                  (includes_defaulted _ Hct) eq_refl Hlive) as H.
    unfold wp in H. cbn [content_type_or_empty content_type r'] in H.
    destruct H as [Hret H]. split; [exact Hret |].
    fold shown_type in H.
    destruct (size_zero (mkBlob p shown_type)).
    + destruct H as [Hs _]. rewrite Hs. repeat split.
    + destruct H as [Hs Hu]. rewrite Hs. repeat split. exact Hu.
Qed.

Lemma result_bytes_reach_page_witness :
  let r := mkResponse 200 None (Delivered (Raw Samples.ten_bytes)) in
  let r' := mkResponse 200 (Some "image/png"%string)
              (Delivered (Raw Samples.ten_bytes)) in
  ResultRoute.GET Samples.backend (Samples.backend_says r) (fun t => t) "task-1"
  = Some r' /\
  hd_error
    (objectUrls
       (snd (for_body 0%nat (JStr "task-1") 0%nat
               (mkAttempt (Resolves r') false false false) initial)))
  = Some (0%nat, mkBlob (Raw Samples.ten_bytes) "image/png").
Proof.
  pose proof (result_bytes_reach_page "http://localhost:5000" "task-1"
                (Samples.backend_says
                   (mkResponse 200 None (Delivered (Raw Samples.ten_bytes))))
                (fun t => t)
                (mkResponse 200 None (Delivered (Raw Samples.ten_bytes)))
                (Raw Samples.ten_bytes) 0%nat (JStr "task-1") 0%nat initial
                ltac:(discriminate) ltac:(discriminate) eq_refl eq_refl eq_refl
                ltac:(discriminate) eq_refl eq_refl eq_refl) as H.
  cbv zeta in H. destruct H as (HGET & _ & H). cbn in H.
  destruct H as (_ & _ & Hurl).
  split; [exact HGET | exact Hurl].
Defined.

(** ** The analyze route and the submit handler together *)

Lemma POST_shape (cfg : option string)
    (fetch : AnalyzeRoute.ProxyRequest -> FetchOutcome) (now : Z)
    (entry : option AnalyzeRoute.FormEntry) :
  (exists base f response id,
     AnalyzeRoute.backend_configured cfg = Some base /\
     entry = Some (AnalyzeRoute.EntryFile f) /\
     fetch (AnalyzeRoute.proxy_request now base f) = Resolves response /\
     ok response = true /\
     get "task_id" (json_or_null response) = Some id /\
     truthy id = true /\
     AnalyzeRoute.POST cfg fetch now (Some entry)
     = AnalyzeRoute.Responded (AnalyzeRoute.accepted_reply id)) \/
  (exists st m,
     truthy m = true /\ ok (AnalyzeRoute.error_reply st m) = false /\
     200 <= st <= 599 /\
     AnalyzeRoute.POST cfg fetch now (Some entry)
     = AnalyzeRoute.Responded (AnalyzeRoute.error_reply st m)).
Proof.
  unfold AnalyzeRoute.POST.
  destruct (AnalyzeRoute.backend_configured cfg) as [base |].
  2:{ right. exists 500, (JStr "Missing HIJAB_BACKEND_URL configuration.").
      repeat split; try reflexivity; lia. }
  destruct entry as [[f | s] |].
  2,3: right; exists 400, (JStr "Image file is required.");
       repeat split; try reflexivity; lia.
  unfold AnalyzeRoute.relay.
  destruct (fetch _) as [response |] eqn:Hfetch.
  2:{ right. exists 502, (JStr "Unable to reach hijab processor backend.").
      repeat split; try reflexivity; lia. }
  destruct (ok response) eqn:Hok; cbn [negb].
  - destruct (get "task_id" (json_or_null response)) as [id |] eqn:Hget.
    + destruct (truthy id) eqn:Hid.
      * left. exists base, f, response, id.
        repeat split; try assumption; reflexivity.
      * right. exists 502, (JStr "Backend did not return a task_id.").
        repeat split; try reflexivity; lia.
    + right. exists 502, (JStr "Backend did not return a task_id.").
      repeat split; try reflexivity; lia.
  - destruct (NextResponse_json _ (Http.status response)) as [resp |] eqn:E.
    + apply NextResponse_json_some in E. destruct E as [-> Hrange].
      right. exists (Http.status response),
        (or_else (get "error" (json_or_null response)) "Failed to start processing.").
      repeat split; try lia.
      * apply or_else_truthy. discriminate.
      * exact Hok.
    + right. exists 502, (JStr "Unable to reach hijab processor backend.").
      repeat split; try reflexivity; lia.
Qed.


(** X9. Every answer of the upload route is taken up by the submit
    handler.  On the accepting answer it goes on to polling with the task
    id as the answer carries it and sets status processing, unless that id
    is not truthy (an infinite number arrives as null): then it stops with
    status error and "Missing task information from the backend.".  On any
    other answer it stops with status error and, as message, the error
    value the answer carries when that is truthy, and "Unable to contact
    the model." otherwise.  File and handles are untouched in all cases. *)
Theorem upload_answer_reaches_page :
  forall (cfg : option string)
         (fetch : AnalyzeRoute.ProxyRequest -> FetchOutcome) (now : Z)
         (entry : option AnalyzeRoute.FormEntry) (w : World),
    exists r,
      AnalyzeRoute.POST cfg fetch now (Some entry) = AnalyzeRoute.Responded r /\
      let out := handleSubmit_resume (Resolves r) w in
      let kept st m :=
        mkSession (selectedFile (session w)) (previewUrl (session w))
          (resultUrl (session w)) st m in
      (exists id,
         r = AnalyzeRoute.accepted_reply id /\
         if truthy (serialized id)
         then fst out = Some (serialized id) /\
              session (snd out) = kept processing (errorMessage (session w))
         else fst out = None /\
              session (snd out)
              = kept error (JStr "Missing task information from the backend.")) \/
      (exists st m,
         r = AnalyzeRoute.error_reply st m /\ ok r = false /\
         fst out = None /\
         session (snd out)
         = kept error
             (or_else (Some (serialized m)) "Unable to contact the model.")).
Proof.
  intros cfg fetch now entry w.
  destruct (POST_shape cfg fetch now entry)
    as [(base & f & response & id & _ & _ & _ & _ & _ & Hid & ->)
       | (st & m & Hm & Hok & Hrange & ->)].
  - eexists. split; [reflexivity |]. left. exists id.
    split; [reflexivity |].
    unfold handleSubmit_resume.
    cbn [AnalyzeRoute.accepted_reply ok Http.status json_or_null json body
         serialized map fst snd get assoc].
    cbn. destruct (truthy (serialized id)); split; reflexivity.
  - eexists. split; [reflexivity |]. right. exists st, m.
    split; [reflexivity | split; [exact Hok |]].
    unfold handleSubmit_resume. rewrite Hok. cbn [negb].
    cbn. destruct (truthy (serialized m)); split; reflexivity.
Qed.

(** X10. After the answer to the upload, whatever it is, the submit handler
    has either a truthy task id to poll for, with status processing and the
    message unchanged, or status error with a truthy message; it never
    touches the file, the handles, the controllers or the object URLs. *)
Theorem upload_outcome :
  forall (upload : FetchOutcome) (w : World),
    let out := handleSubmit_resume upload w in
    selectedFile (session (snd out)) = selectedFile (session w) /\
    previewUrl (session (snd out)) = previewUrl (session w) /\
    resultUrl (session (snd out)) = resultUrl (session w) /\
    (pollControllerRef (snd out), aborted (snd out), nextController (snd out),
     objectUrls (snd out), nextUrl (snd out))
    = (pollControllerRef w, aborted w, nextController w, objectUrls w, nextUrl w) /\
    match fst out with
    | Some id =>
        truthy id = true /\
        status (session (snd out)) = processing /\
        errorMessage (session (snd out)) = errorMessage (session w)
    | None =>
        status (session (snd out)) = error /\
        truthy (errorMessage (session (snd out))) = true
    end.
Proof.
  intros upload w out. subst out.
  change (wp (handleSubmit_resume upload)
            (fun res w' =>
               selectedFile (session w') = selectedFile (session w) /\
               previewUrl (session w') = previewUrl (session w) /\
               resultUrl (session w') = resultUrl (session w) /\
               (pollControllerRef w', aborted w', nextController w',
                objectUrls w', nextUrl w')
               = (pollControllerRef w, aborted w, nextController w,
                  objectUrls w, nextUrl w) /\
               match res with
               | Some id =>
                   truthy id = true /\
                   status (session w') = processing /\
                   errorMessage (session w') = errorMessage (session w)
               | None =>
                   status (session w') = error /\
                   truthy (errorMessage (session w')) = true
               end) w).
  wp_go; repeat split; try reflexivity; try assumption;
    apply or_else_truthy; discriminate.
Qed.

(** ** The budget and the outcome of the poll loop *)

Ltac count_tac :=
  cbn [Laws.count is_query Laws.is_set_status log session selectedFile
       previewUrl pollControllerRef nextController];
  repeat split; try reflexivity; try lia.

Lemma for_body_budget (c : Controller) (taskId : Json) (attempt : nat)
    (a : Attempt) (w : World) :
  wp (for_body c taskId attempt a)
     (fun r w' =>
        (Laws.count is_query (log w') <= Laws.count is_query (log w) + 1)%nat /\
        selectedFile (session w') = selectedFile (session w) /\
        previewUrl (session w') = previewUrl (session w) /\
        pollControllerRef w' = pollControllerRef w /\
        nextController w' = nextController w /\
        ((r = Continue /\
          Laws.count Laws.is_set_status (log w')
          = Laws.count Laws.is_set_status (log w)) \/
         (r = Return /\
          (Laws.count Laws.is_set_status (log w')
           <= Laws.count Laws.is_set_status (log w) + 1)%nat))) w.
Proof.
  destruct a as [rep af ab asl].
  wp_go; count_tac;
    first [ left; split; [reflexivity | count_tac]
          | right; split; [reflexivity | count_tac] ].
Qed.

Lemma for_loop_budget (c : Controller) (taskId : Json) (env : nat -> Attempt)
    (attempts : list nat) :
  forall w,
    wp (for_loop c taskId env attempts)
       (fun r w' =>
          (Laws.count is_query (log w')
           <= Laws.count is_query (log w) + List.length attempts)%nat /\
          selectedFile (session w') = selectedFile (session w) /\
          previewUrl (session w') = previewUrl (session w) /\
          pollControllerRef w' = pollControllerRef w /\
          nextController w' = nextController w /\
          ((r = Normal /\
            Laws.count Laws.is_set_status (log w')
            = Laws.count Laws.is_set_status (log w)) \/
           (r = Return /\
            (Laws.count Laws.is_set_status (log w')
             <= Laws.count Laws.is_set_status (log w) + 1)%nat))) w.
Proof.
  induction attempts as [| attempt rest IH]; intros w.
  - wp_prim. cbn [List.length]. repeat split; try lia. left. split; reflexivity.
  - cbn [for_loop List.length]. apply wp_bind.
    eapply wp_weaken; [| apply for_body_budget].
    intros r w1 (Hq & Hf & Hp & Href & Hnc & [[-> Hs] | [-> Hs]]).
    + eapply wp_weaken; [| apply IH].
      intros r2 w2 (Hq2 & Hf2 & Hp2 & Href2 & Hnc2 & Hcase).
      destruct Hcase as [[-> Hs2] | [-> Hs2]].
      * repeat split; try congruence; try lia. left. split; [reflexivity | lia].
      * repeat split; try congruence; try lia. right. split; [reflexivity | lia].
    + wp_prim. repeat split; try congruence; try lia.
      right. split; [reflexivity | lia].
Qed.

(** X11. A run of the poll loop, against any backend and with any
    cancellations, issues at most 45 status queries and sets the status at
    most once; it never touches the selected file or the preview handle, and
    its controller is a fresh one, stored in the ref. *)
Theorem poll_budget :
  forall (taskId : Json) (env : nat -> Attempt) (w : World),
    let w' := exec (pollForResult taskId env) w in
    (Laws.count is_query (log w') <= Laws.count is_query (log w) + 45)%nat /\
    (Laws.count Laws.is_set_status (log w')
     <= Laws.count Laws.is_set_status (log w) + 1)%nat /\
    selectedFile (session w') = selectedFile (session w) /\
    previewUrl (session w') = previewUrl (session w) /\
    pollControllerRef w' = Some (nextController w) /\
    nextController w' = S (nextController w).
Proof.
  intros taskId env w. cbv zeta.
  change (wp (pollForResult taskId env)
            (fun _ w' =>
               (Laws.count is_query (log w')
                <= Laws.count is_query (log w) + 45)%nat /\
               (Laws.count Laws.is_set_status (log w')
                <= Laws.count Laws.is_set_status (log w) + 1)%nat /\
               selectedFile (session w') = selectedFile (session w) /\
               previewUrl (session w') = previewUrl (session w) /\
               pollControllerRef w' = Some (nextController w) /\
               nextController w' = S (nextController w)) w).
  unfold pollForResult. apply wp_bind.
  apply (wp_weaken poll_start
           (fun c w1 =>
              c = nextController w /\
              Laws.count is_query (log w1) = Laws.count is_query (log w) /\
              Laws.count Laws.is_set_status (log w1)
              = Laws.count Laws.is_set_status (log w) /\
              session w1 = session w /\
              pollControllerRef w1 = Some (nextController w) /\
              nextController w1 = S (nextController w))).
  - intros c w1 (-> & Hq1 & Hs1 & Hse1 & Href1 & Hnc1). apply wp_bind.
    eapply wp_weaken; [| apply for_loop_budget].
    intros r w2 (Hq2 & Hf2 & Hp2 & Href2 & Hnc2 & Hcase).
    assert (Hlen : List.length (seq 0 MAX_POLLS) = 45%nat) by reflexivity.
    rewrite Hlen in Hq2. rewrite Hse1 in Hf2, Hp2.
    destruct Hcase as [[-> Hs2] | [-> Hs2]].
    + apply (wp_weaken (after_loop (nextController w))
               (fun _ w3 =>
                  Laws.count is_query (log w3) = Laws.count is_query (log w2) /\
                  (Laws.count Laws.is_set_status (log w3)
                   <= Laws.count Laws.is_set_status (log w2) + 1)%nat /\
                  selectedFile (session w3) = selectedFile (session w2) /\
                  previewUrl (session w3) = previewUrl (session w2) /\
                  pollControllerRef w3 = pollControllerRef w2 /\
                  nextController w3 = nextController w2)).
      * intros ? w3 (Hq3 & Hs3 & Hf3 & Hp3 & Href3 & Hnc3).
        repeat split; try congruence; lia.
      * wp_go; count_tac.
    + wp_prim. repeat split; try congruence; lia.
  - wp_go; count_tac.
Qed.

Lemma for_body_outcome (c : Controller) (taskId : Json) (attempt : nat)
    (a : Attempt) (w : World) :
  wp (for_body c taskId attempt a)
     (fun r w' =>
        (r = Continue /\
         Laws.count Laws.is_set_status (log w')
         = Laws.count Laws.is_set_status (log w)) \/
        (r = Return /\
         (is_aborted c w' = true \/
          (Laws.count Laws.is_set_status (log w')
           = S (Laws.count Laws.is_set_status (log w)) /\
           (status (session w') = success \/ status (session w') = error))))) w.
Proof.
  destruct a as [rep af ab asl].
  wp_go;
    first [ left; split; reflexivity
          | right; split; [reflexivity |];
            first [ left; assumption
                  | left; reflexivity
                  | right; split; [reflexivity |];
                    first [left; reflexivity | right; reflexivity] ] ].
Qed.

Lemma for_loop_outcome (c : Controller) (taskId : Json) (env : nat -> Attempt)
    (attempts : list nat) :
  forall w,
    wp (for_loop c taskId env attempts)
       (fun r w' =>
          (r = Normal /\
           Laws.count Laws.is_set_status (log w')
           = Laws.count Laws.is_set_status (log w)) \/
          (r = Return /\
           (is_aborted c w' = true \/
            (Laws.count Laws.is_set_status (log w')
             = S (Laws.count Laws.is_set_status (log w)) /\
             (status (session w') = success \/ status (session w') = error))))) w.
Proof.
  induction attempts as [| attempt rest IH]; intros w.
  - wp_prim. left. split; reflexivity.
  - cbn [for_loop]. apply wp_bind.
    eapply wp_weaken; [| apply for_body_outcome].
    intros r w1 [[-> Hs] | [-> H]].
    + rewrite <- Hs. apply IH.
    + wp_prim. right. split; [reflexivity | exact H].
Qed.

(** X12. A run of the poll loop never ends silently: when it ends, either
    its controller has been aborted, or it has set the status exactly once
    and the status is success or error. *)
Theorem poll_ends_with_outcome :
  forall (taskId : Json) (env : nat -> Attempt) (w : World),
    let w' := exec (pollForResult taskId env) w in
    is_aborted (nextController w) w' = true \/
    (Laws.count Laws.is_set_status (log w')
     = S (Laws.count Laws.is_set_status (log w)) /\
     (status (session w') = success \/ status (session w') = error)).
Proof.
  intros taskId env w. cbv zeta.
  change (wp (pollForResult taskId env)
            (fun _ w' =>
               is_aborted (nextController w) w' = true \/
               (Laws.count Laws.is_set_status (log w')
                = S (Laws.count Laws.is_set_status (log w)) /\
                (status (session w') = success \/ status (session w') = error))) w).
  unfold pollForResult. apply wp_bind.
  apply (wp_weaken poll_start
           (fun c w1 =>
              c = nextController w /\
              Laws.count Laws.is_set_status (log w1)
              = Laws.count Laws.is_set_status (log w))).
  - intros c w1 [-> Hs1]. rewrite <- Hs1. apply wp_bind.
    eapply wp_weaken; [| apply for_loop_outcome].
    intros r w2 [[-> Hs2] | [-> H]].
    + rewrite <- Hs2.
      wp_go; [left; assumption | right; split; [reflexivity | right; reflexivity]].
    + wp_prim. exact H.
  - wp_go; split; reflexivity.
Qed.

(** ** What holds in every state the page can reach *)

Lemma run_invariant (Inv : World -> Prop) :
  (forall act w, Inv w -> wp (dispatch act) (fun _ w' => Inv w') w) ->
  forall acts w, Inv w -> Inv (exec (run acts) w).
Proof.
  intros Hstep acts.
  induction acts as [| act rest IH]; intros w Hw.
  - exact Hw.
  - unfold exec. cbn [run]. unfold bind.
    pose proof (Hstep act w Hw) as H. unfold wp in H.
    destruct (dispatch act w) as [[] w1]. cbn [fst snd] in H.
    exact (IH w1 H).
Qed.

Lemma dispatch_error_has_message (act : Action) (w : World) :
  (status (session w) = error -> truthy (errorMessage (session w)) = true) ->
  wp (dispatch act)
     (fun _ w' =>
        status (session w') = error ->
        truthy (errorMessage (session w')) = true) w.
Proof.
  intros Hinv.
  destruct act as [[f |] | | upload | c taskId attempt [rep af ab' asl] | c |];
    wp_go; intros Hst;
    first [ discriminate Hst
          | exact (Hinv Hst)
          | reflexivity
          | apply or_else_truthy; discriminate ].
Qed.

(** X13. In every state the page reaches from its mount, status error comes
    with a truthy error message.  The line under the status text is then
    not the standing explanation: a message that is a string is shown as
    it is, and for a message that is an object the render throws. *)
Theorem error_status_has_message :
  forall (acts : list Action),
    status (session (exec (run acts) initial)) = error ->
    truthy (errorMessage (session (exec (run acts) initial))) = true /\
    View.shown_error (session (exec (run acts) initial)) <> View.Explanation /\
    match errorMessage (session (exec (run acts) initial)) with
    | JStr m =>
        View.shown_error (session (exec (run acts) initial))
        = View.ErrorLine [JStr m]
    | JObj _ =>
        View.shown_error (session (exec (run acts) initial)) = View.RenderThrows
    | _ => True
    end.
Proof.
  intros acts Hst.
  assert (H : truthy (errorMessage (session (exec (run acts) initial))) = true).
  { revert Hst.
    apply (run_invariant
             (fun w => status (session w) = error ->
                       truthy (errorMessage (session w)) = true)
             dispatch_error_has_message acts initial).
    discriminate. }
  split; [exact H |]. unfold View.shown_error. rewrite H.
  split.
  - destruct (View.child_leaves _); discriminate.
  - destruct (errorMessage (session (exec (run acts) initial))); try exact I;
      reflexivity.
Qed.

Lemma error_status_has_message_witness :
  let refused :=
    Resolves (Samples.json_response 500
                (JObj [("error", JObj [("code", JNum 7)])])) in
  let lost := [FileChange (Some Samples.photo); SubmitBegin;
               SubmitResume Rejects] in
  let odd := [FileChange (Some Samples.photo); SubmitBegin;
              SubmitResume refused] in
  View.shown_error (session (exec (run lost) initial))
  = View.ErrorLine [JStr "Upload failed. Please try again."] /\
  View.shown_error (session (exec (run odd) initial)) = View.RenderThrows.
Proof.
  cbv zeta. split.
  - destruct (error_status_has_message
                [FileChange (Some Samples.photo); SubmitBegin;
                 SubmitResume Rejects]) as (_ & _ & H).
    + vm_compute. reflexivity.
    + exact H.
  - destruct (error_status_has_message
                [FileChange (Some Samples.photo); SubmitBegin;
                 SubmitResume
                   (Resolves (Samples.json_response 500
                                (JObj [("error", JObj [("code", JNum 7)])])))])
      as (_ & _ & H).
    + vm_compute. reflexivity.
    + exact H.
Defined.

Lemma dispatch_success_has_result (act : Action) (w : World) :
  (status (session w) = success -> resultUrl (session w) <> None) ->
  wp (dispatch act)
     (fun _ w' =>
        status (session w') = success -> resultUrl (session w') <> None) w.
Proof.
  intros Hinv.
  destruct act as [[f |] | | upload | c taskId attempt [rep af ab' asl] | c |];
    wp_go; intros Hst;
    first [ discriminate Hst
          | exact (Hinv Hst)
          | discriminate ].
Qed.

(** X14. In every state the page reaches from its mount, status success
    comes with a result handle. *)
Theorem success_status_has_result :
  forall (acts : list Action),
    status (session (exec (run acts) initial)) = success ->
    resultUrl (session (exec (run acts) initial)) <> None.
Proof.
  intros acts.
  apply (run_invariant
           (fun w => status (session w) = success -> resultUrl (session w) <> None)
           dispatch_success_has_result acts initial).
  discriminate.
Qed.

Lemma success_status_has_result_witness :
  resultUrl
    (session
       (exec (run [FileChange (Some Samples.photo); SubmitBegin;
                   SubmitResume Samples.accepted;
                   PollAttempt 0%nat (JStr "task-1") 0%nat
                     (Samples.undisturbed Samples.png_reply)])
          initial)) <> None.
Proof.
  apply (success_status_has_result
           [FileChange (Some Samples.photo); SubmitBegin;
            SubmitResume Samples.accepted;
            PollAttempt 0%nat (JStr "task-1") 0%nat
              (Samples.undisturbed Samples.png_reply)]).
  vm_compute. reflexivity.
Defined.

(** ** Controllers *)

Lemma existsb_kept (c c' : Controller) (l : list Controller) :
  existsb (Nat.eqb c) l = true ->
  existsb (Nat.eqb c) (if existsb (Nat.eqb c') l then l else c' :: l) = true.
Proof.
  intros H. destruct (existsb (Nat.eqb c') l); [exact H |].
  cbn [existsb]. rewrite H. apply orb_true_r.
Qed.

Ltac kept_tac :=
  intros ? Hkept; unfold is_aborted in *;
  cbn [aborted existsb] in *;
  rewrite ?Hkept, ?orb_true_r;
  first [ reflexivity | assumption
        | apply existsb_kept; assumption ].

(** Aborting is for good, and only submitting makes a controller. *)
Lemma dispatch_keeps_aborted (act : Action) (w : World) :
  wp (dispatch act)
     (fun _ w' =>
        (forall c, is_aborted c w = true -> is_aborted c w' = true) /\
        (match act with
         | SubmitResume _ => True
         | _ => nextController w' = nextController w /\
                pollControllerRef w' = pollControllerRef w
         end)) w.
Proof.
  destruct act as [[f |] | | upload | c taskId attempt [rep af ab' asl] | c |];
    wp_go; (split; [kept_tac | try exact I; try (split; reflexivity)]).
Qed.

Ltac live_tac Hinv :=
  match goal with
  | Hc0 : (?c0 < S ?n)%nat |- _ =>
      destruct (Nat.eq_dec c0 n) as [-> | Hne];
      [ left; reflexivity
      | right;
        assert (Hlt : (c0 < n)%nat) by lia;
        destruct (Hinv c0 Hlt) as [H | H];
        [ first [ discriminate H
                | injection H as ->; apply existsb_abort ]
        | first [ exact H | apply existsb_kept; exact H ] ] ]
  | Hc0 : (?c0 < ?n)%nat |- _ =>
      destruct (Hinv c0 Hc0) as [H | H];
      [ left; exact H
      | right; first [ exact H | apply existsb_kept; exact H ] ]
  end.

Lemma dispatch_one_live_loop (act : Action) (w : World) :
  Laws.one_live_loop w ->
  wp (dispatch act) (fun _ w' => Laws.one_live_loop w') w.
Proof.
  intros Hinv.
  destruct act as [file | | upload | c taskId attempt a | c |].
  1,2,4,5,6:
    (eapply wp_weaken; [| apply dispatch_keeps_aborted]);
    cbv beta; intros _ w' [Hkept [Hnc Href]] c0 Hc0;
    rewrite Hnc in Hc0; rewrite Href;
    destruct (Hinv c0 Hc0) as [H | H]; [left; exact H | right; exact (Hkept c0 H)].
  unfold Laws.one_live_loop in *.
  wp_go; intros c0 Hc0; live_tac Hinv.
Qed.

(** Unmounting aborts the controller the page points to. *)
Lemma unmount_aborts_all (w : World) :
  Laws.one_live_loop w ->
  forall c, (c < nextController (exec unmount w))%nat ->
            is_aborted c (exec unmount w) = true.
Proof.
  intros Hinv. unfold Laws.one_live_loop in Hinv.
  change (wp unmount
            (fun _ w' => forall c, (c < nextController w')%nat ->
                                   is_aborted c w' = true) w).
  wp_go; intros c0 Hc0;
    (destruct (Hinv c0 Hc0) as [H | H];
     [ first [ discriminate H | injection H as ->; apply existsb_abort ]
     | first [ exact H | apply existsb_kept; exact H ] ]).
Qed.

Lemma unmount_keeps_count (w : World) :
  nextController (exec unmount w) = nextController w.
Proof.
  change (wp unmount (fun _ w' => nextController w' = nextController w) w).
  wp_go; reflexivity.
Qed.

(** X15. Of the controllers made since the mount, only the one in the ref
    can still be live: every other one has been aborted, so at most one poll
    loop is live at any time; and after the unmount every controller has
    been aborted. *)
Theorem at_most_one_live_loop :
  forall (acts : list Action) (c : Controller),
    (c < nextController (exec (run acts) initial))%nat ->
    (pollControllerRef (exec (run acts) initial) = Some c \/
     is_aborted c (exec (run acts) initial) = true) /\
    is_aborted c (exec (whole_life acts) initial) = true.
Proof.
  intros acts c Hc.
  assert (Hrun : Laws.one_live_loop (exec (run acts) initial)).
  { apply (run_invariant Laws.one_live_loop dispatch_one_live_loop).
    intros c' Hc'. cbn in Hc'. lia. }
  split; [exact (Hrun c Hc) |].
  assert (Hl : exec (whole_life acts) initial
               = exec unmount (exec (run acts) initial)).
  { unfold whole_life, exec, bind.
    destruct (run acts initial) as [[] w1]. reflexivity. }
  rewrite Hl. apply (unmount_aborts_all _ Hrun).
  rewrite unmount_keeps_count. exact Hc.
Qed.

Lemma at_most_one_live_loop_witness :
  let acts := [FileChange (Some Samples.photo); SubmitBegin;
               SubmitResume Samples.accepted; SubmitBegin;
               SubmitResume Samples.accepted] in
  (pollControllerRef (exec (run acts) initial) = Some 0%nat \/
   is_aborted 0%nat (exec (run acts) initial) = true) /\
  is_aborted 0%nat (exec (whole_life acts) initial) = true.
Proof.
  cbv zeta.
  apply (at_most_one_live_loop
           [FileChange (Some Samples.photo); SubmitBegin;
            SubmitResume Samples.accepted; SubmitBegin;
            SubmitResume Samples.accepted] 0%nat).
  vm_compute. lia.
Defined.

(** ** The URLs the session holds *)

Ltac store_simpl :=
  repeat (progress (cbn [filter fst negb]; eqb_false; rewrite ?Nat.eqb_refl)).

Ltac in_tac :=
  store_simpl;
  lazymatch goal with
  | |- True => exact I
  | |- In _ (_ :: _) => first [left; reflexivity | right; in_tac]
  | |- In _ (filter _ _) =>
      apply filter_In; split; [in_tac | store_simpl; reflexivity]
  | |- In _ _ => eassumption
  | |- exists b, In (_, b) _ => eexists; in_tac
  end.

Ltac live_store_tac :=
  unfold Laws.handles_live;
  cbn [session objectUrls previewUrl resultUrl selectedFile];
  split; in_tac.

Lemma dispatch_handles_live (act : Action) (w : World) :
  tracked w -> Laws.handles_live w ->
  wp (dispatch act) (fun _ w' => Laws.handles_live w') w.
Proof.
  intros Hreplay [Hprev Hres]. unfold tracked in Hreplay.
  pose proof (replay_sound _ _ Hreplay) as [_ _ _ _ Hbp Hbr Hd _ _].
  destruct w as [[sf p r st em] ref ab nc urls n lg].
  cbn [session log nextUrl previewUrl resultUrl selectedFile objectUrls
       held_preview held_result fresh once] in *.
  destruct p as [p0 |], sf as [f0 |]; try contradiction;
    destruct r as [r0 |]; [destruct Hres as [b0 Hres] | | destruct Hres as [b0 Hres] |].
  - assert (Hp0 := Hbp p0 eq_refl). assert (Hr0 := Hbr r0 eq_refl).
    assert (Hrp : Nat.eqb r0 p0 = false) by (exact (Hd p0 (Nat.eqb_refl p0))).
    assert (Hpr : Nat.eqb p0 r0 = false) by (rewrite Nat.eqb_sym; exact Hrp).
    assert (Hpn : Nat.eqb p0 n = false) by (apply Nat.eqb_neq; lia).
    assert (Hnp : Nat.eqb n p0 = false) by (apply Nat.eqb_neq; lia).
    assert (Hrn : Nat.eqb r0 n = false) by (apply Nat.eqb_neq; lia).
    assert (Hnr : Nat.eqb n r0 = false) by (apply Nat.eqb_neq; lia).
    clear Hbp Hbr Hd Hp0 Hr0 Hreplay.
    destruct act as [[f |] | | upload | c taskId attempt [rep af ab' asl] | c |];
      wp_go; live_store_tac.
  - assert (Hp0 := Hbp p0 eq_refl).
    assert (Hpn : Nat.eqb p0 n = false) by (apply Nat.eqb_neq; lia).
    assert (Hnp : Nat.eqb n p0 = false) by (apply Nat.eqb_neq; lia).
    clear Hbp Hbr Hd Hp0 Hreplay.
    destruct act as [[f |] | | upload | c taskId attempt [rep af ab' asl] | c |];
      wp_go; live_store_tac.
  - assert (Hr0 := Hbr r0 eq_refl).
    assert (Hrn : Nat.eqb r0 n = false) by (apply Nat.eqb_neq; lia).
    assert (Hnr : Nat.eqb n r0 = false) by (apply Nat.eqb_neq; lia).
    clear Hbp Hbr Hd Hr0 Hreplay.
    destruct act as [[f |] | | upload | c taskId attempt [rep af ab' asl] | c |];
      wp_go; live_store_tac.
  - clear Hbp Hbr Hd Hreplay.
    destruct act as [[f |] | | upload | c taskId attempt [rep af ab' asl] | c |];
      wp_go; live_store_tac.
Qed.

(** X16. In every state the page reaches from its mount, there is a preview
    handle exactly when a file is selected, the preview handle is a live
    object URL of that very file, and the result handle, when there is one,
    is a live object URL. *)
Theorem held_urls_are_live :
  forall (acts : list Action),
    Laws.handles_live (exec (run acts) initial).
Proof.
  intros acts.
  assert (H : tracked (exec (run acts) initial) /\
              Laws.handles_live (exec (run acts) initial)).
  { apply (run_invariant (fun w => tracked w /\ Laws.handles_live w)).
    - intros act w [Ht Hl].
      pose proof (dispatch_tracked act w Ht) as H1.
      pose proof (dispatch_handles_live act w Ht Hl) as H2.
      unfold wp in *. split; assumption.
    - split; [reflexivity |]. unfold Laws.handles_live. cbn. split; exact I. }
  exact (proj2 H).
Qed.

(** ** Choosing a file *)

(** X17. Choosing a file, in any state, leaves the page with that file, a
    fresh preview handle, no result handle, status idle and no message, and
    with the poll loop of the ref cancelled. *)
Theorem file_choice_starts_afresh :
  forall (f : File) (w : World),
    let w' := exec (dispatch (FileChange (Some f))) w in
    session w' = mkSession (Some f) (Some (nextUrl w)) None idle JNull /\
    nextUrl w' = S (nextUrl w) /\
    match pollControllerRef w with
    | Some c => is_aborted c w' = true
    | None => aborted w' = aborted w
    end.
Proof.
  intros f w. cbv zeta.
  change (wp (dispatch (FileChange (Some f)))
            (fun _ w' =>
               session w' = mkSession (Some f) (Some (nextUrl w)) None idle JNull /\
               nextUrl w' = S (nextUrl w) /\
               match pollControllerRef w with
               | Some c => is_aborted c w' = true
               | None => aborted w' = aborted w
               end) w).
  destruct w as [[sf p r st em] ref ab nc urls n lg].
  cbn [session nextUrl pollControllerRef aborted].
  wp_go; cbn [session nextUrl pollControllerRef aborted];
    (split; [reflexivity | split; [reflexivity |]]);
    first [ reflexivity | apply existsb_abort ].
Qed.

(** ** The submit button *)

(** X18. After the first part of a submission the submit button is disabled,
    whatever the state before; when a file was selected its label reads
    Checking..., and otherwise the label is as before. *)
Theorem submit_locks_button :
  forall (w : World),
    let s' := session (exec (dispatch SubmitBegin) w) in
    View.submit_disabled s' = true /\
    View.submit_label s'
    = match selectedFile (session w) with
      | Some _ => "Checking..."%string
      | None => View.submit_label (session w)
      end.
Proof.
  intros w. cbv zeta.
  change (wp (dispatch SubmitBegin)
            (fun _ w' =>
               View.submit_disabled (session w') = true /\
               View.submit_label (session w')
               = match selectedFile (session w) with
                 | Some _ => "Checking..."%string
                 | None => View.submit_label (session w)
                 end) w).
  destruct w as [[sf p r st em] ref ab nc urls n lg].
  cbn [session selectedFile].
  wp_go; split; reflexivity.
Qed.

(** ** When the routes leave the backend alone *)

(** X19. When no backend is configured or the request carries no image file,
    the answer of the upload route does not depend on the network or the
    clock: the backend is not contacted. *)
Theorem POST_contacts_backend_only_with_file :
  forall (cfg : option string) (fetch1 fetch2 : AnalyzeRoute.ProxyRequest -> FetchOutcome)
         (now1 now2 : Z) (form : option (option AnalyzeRoute.FormEntry)),
    AnalyzeRoute.backend_configured cfg = None \/
    (forall f, form <> Some (Some (AnalyzeRoute.EntryFile f))) ->
    AnalyzeRoute.POST cfg fetch1 now1 form = AnalyzeRoute.POST cfg fetch2 now2 form.
Proof.
  intros cfg fetch1 fetch2 now1 now2 form H.
  unfold AnalyzeRoute.POST.
  destruct (AnalyzeRoute.backend_configured cfg) as [base |]; [| reflexivity].
  destruct H as [H | H]; [discriminate H |].
  destruct form as [[[f | s] |] |]; try reflexivity.
  exfalso. exact (H f eq_refl).
Qed.

Lemma POST_contacts_backend_only_with_file_witness :
  AnalyzeRoute.POST Samples.backend (Samples.always Samples.png_reply) 0
    (Some (Some (AnalyzeRoute.EntryString "face.png")))
  = AnalyzeRoute.POST Samples.backend (fun _ => Rejects) 1
      (Some (Some (AnalyzeRoute.EntryString "face.png"))).
Proof.
  apply (POST_contacts_backend_only_with_file Samples.backend
           (Samples.always Samples.png_reply) (fun _ => Rejects) 0 1
           (Some (Some (AnalyzeRoute.EntryString "face.png")))).
  right. intros f. discriminate.
Defined.

(** X20. The upload that the route forwards to the backend always has a non-
    empty file name and a non-empty content type and carries the bytes of
    the received file unchanged; a name and a type that the received file
    has are kept. *)
Theorem forwarded_upload_is_named_and_typed :
  forall (now : Z) (base : string) (f : File),
    let req := AnalyzeRoute.proxy_request now base f in
    AnalyzeRoute.image_name req <> ""%string /\
    AnalyzeRoute.image_type req <> ""%string /\
    AnalyzeRoute.image_bytes req = bytes f /\
    (name f <> ""%string -> AnalyzeRoute.image_name req = name f) /\
    (type f <> ""%string -> AnalyzeRoute.image_type req = type f).
Proof.
  intros now base f. cbv zeta.
  unfold AnalyzeRoute.proxy_request, AnalyzeRoute.upload_name,
    AnalyzeRoute.upload_type.
  cbn [AnalyzeRoute.image_name AnalyzeRoute.image_type AnalyzeRoute.image_bytes].
  unfold str_or.
  destruct (String.eqb_spec (name f) "") as [Hn | Hn];
    destruct (String.eqb_spec (type f) "") as [Ht | Ht];
    repeat split; try assumption; try discriminate; try reflexivity;
    try (intros H; contradiction).
Qed.

